(** * Outfit layer history of the virtual try-on session

    A shallow embedding of the state management block of [src/App.tsx]
    (the [App] component), of the click handler of the wardrobe panel
    (second document of [src/App.tsx]), and of the buttons of
    [src/components/OutfitStack.tsx], [src/components/SavedOutfitsPanel.tsx]
    and [src/components/ColorPickerModal.tsx] that reach those handlers.

    Conventions of the embedding.

    - A React state variable is a field of the record [State]; a call
      [setX(v)] writes the field, a call [setX(prev => f prev)] applies
      [f] to the field as it is when the update runs.
    - An [async] handler is split at its single [await] of the image
      service: [h_begin] is the synchronous part (it returns the state and,
      when a request was issued, the values its closure captured), and
      [h_resolve] is the continuation, run on the state as it is when the
      service answers.  [h] itself is the two run back to back.
    - JavaScript arrays are never mutated in place by this code (it uses
      [slice], spread and [map]), so they are lists.  Layer objects are
      never mutated either (no field of a layer is reassigned), so they are
      values.  The [poseImages] object of a layer IS mutated in place (by
      [handlePoseSelect]), so it lives in a store, [heap], and a layer holds
      its address: two arrays that contain the same layer share its pose
      images. *)

From stdpp Require Import base list strings.
From Stdlib Require Import ZArith Lia.

Local Open Scope string_scope.
Local Open Scope list_scope.
Local Open Scope Z_scope.

(** ** JavaScript values the handlers test *)

(** Truthiness of a [string | null | undefined]: the empty string, [null]
    and [undefined] are falsy. *)
Definition truthy (v : option string) : bool :=
  match v with
  | Some s => negb (String.eqb s "")
  | None => false
  end.

(** [a[i]] for a JavaScript number [i] that holds an integer: [undefined]
    outside of the array. *)
Definition js_index {A} (a : list A) (i : Z) : option A :=
  if i <? 0 then None else a !! Z.to_nat i.

(** [a.slice(0, e)]: a negative [e] counts from the end of the array. *)
Definition js_slice0 {A} (a : list A) (e : Z) : list A :=
  let len := Z.of_nat (length a) in
  let k := if e <? 0 then Z.max (len + e) 0 else Z.min e len in
  take (Z.to_nat k) a.

(** ** Data model *)

(** Modelled from the spec: the type declarations of [src/types.ts] are
    not among the sources.  [WardrobeItem], [OutfitLayer] and
    [SavedOutfit] have the fields of section 3 of the spec, which are the
    fields the handlers and [src/wardrobe.ts] read and write. *)
Inductive ItemType := garment | accessory.

Record WardrobeItem := {
  id : string;
  name : string;
  url : string;
  type : ItemType;
}.

(** An object used as a map from pose instruction to image.  The list is
    the object's own enumeration order ([Object.keys], [Object.values]);
    the keys the code writes are pose instructions, none of them an array
    index, so a new key goes to the end. *)
Definition PoseImages := list (string * string).

(** [obj[k]] *)
Fixpoint pm_get (pm : PoseImages) (k : string) : option string :=
  match pm with
  | [] => None
  | (k', v) :: rest => if String.eqb k' k then Some v else pm_get rest k
  end.

(** [obj[k] = v] *)
Fixpoint pm_set (pm : PoseImages) (k v : string) : PoseImages :=
  match pm with
  | [] => [(k, v)]
  | (k', v') :: rest =>
      if String.eqb k' k then (k, v) :: rest else (k', v') :: pm_set rest k v
  end.

(** [Object.values(obj)] and [Object.keys(obj)] *)
Definition pm_values (pm : PoseImages) : list string := pm.*2.
Definition pm_keys (pm : PoseImages) : list string := pm.*1.

(** Address of a [poseImages] object in the store. *)
Definition loc := nat.

Record OutfitLayer := {
  item : option WardrobeItem;
  poseImages : loc;
}.

Record SavedOutfit := {
  so_id : string;
  so_name : string;
  previewImageUrl : string;
  so_modelImageUrl : string;
  layers : list OutfitLayer;
}.

(** What [JSON.stringify] writes for a layer and for a saved outfit: the
    pose images are written out, no address survives. *)
Record StoredLayer := {
  st_item : option WardrobeItem;
  st_poseImages : PoseImages;
}.

Record StoredOutfit := {
  st_id : string;
  st_name : string;
  st_previewImageUrl : string;
  st_modelImageUrl : string;
  st_layers : list StoredLayer;
}.

(** Modelled from the spec: [getFriendlyErrorMessage] of [src/lib/utils]
    is not among the sources; the spec says only that it turns a failure
    into a message for the user.  Its value at [(err, context)] is kept
    as the uninterpreted application: the handlers store it and never
    look inside. *)
Inductive ErrorMessage :=
| getFriendlyErrorMessage (err : string) (context : string).

(** A [File] handed to the image service: only its identity matters. *)
Definition File := string.

(** ** The pose catalog *)

Definition POSE_INSTRUCTIONS : list string := [
  "Full frontal view, hands on hips";
  "Slightly turned, 3/4 view";
  "Side profile view";
  "Jumping in the air, mid-action shot";
  "Walking towards camera";
  "Leaning against a wall"
].

(** [POSE_INSTRUCTIONS[i]] used as a property key: outside of the catalog
    the value is [undefined], and the key written or read is the string
    "undefined". *)
Definition poseKey (i : Z) : string :=
  default "undefined" (js_index POSE_INSTRUCTIONS i).

(** ** Session state: the [useState] cells of [App], the local error of
    the wardrobe panel, the store of pose-image objects and the entry of
    [localStorage] the archive is written to *)

Record State := {
  modelImageUrl : option string;
  outfitHistory : list OutfitLayer;
  currentOutfitIndex : Z;
  isLoading : bool;
  loadingMessage : string;
  error : option ErrorMessage;
  currentPoseIndex : Z;
  isSheetCollapsed : bool;
  wardrobe : list WardrobeItem;
  accessories : list WardrobeItem;
  savedOutfits : list SavedOutfit;
  isColorPickerOpen : bool;
  isLookbookOpen : bool;
  selectedLayerIndexForRecolor : option Z;
  panelError : option string;
  heap : list PoseImages;
  localStorage : option (list StoredOutfit);
}.

Definition setModelImageUrl (v : option string) (s : State) : State :=
  {| modelImageUrl := v; outfitHistory := outfitHistory s;
     currentOutfitIndex := currentOutfitIndex s; isLoading := isLoading s;
     loadingMessage := loadingMessage s; error := error s;
     currentPoseIndex := currentPoseIndex s;
     isSheetCollapsed := isSheetCollapsed s; wardrobe := wardrobe s;
     accessories := accessories s; savedOutfits := savedOutfits s;
     isColorPickerOpen := isColorPickerOpen s;
     isLookbookOpen := isLookbookOpen s;
     selectedLayerIndexForRecolor := selectedLayerIndexForRecolor s;
     panelError := panelError s; heap := heap s;
     localStorage := localStorage s |}.

Definition setOutfitHistory (f : list OutfitLayer → list OutfitLayer)
    (s : State) : State :=
  {| modelImageUrl := modelImageUrl s; outfitHistory := f (outfitHistory s);
     currentOutfitIndex := currentOutfitIndex s; isLoading := isLoading s;
     loadingMessage := loadingMessage s; error := error s;
     currentPoseIndex := currentPoseIndex s;
     isSheetCollapsed := isSheetCollapsed s; wardrobe := wardrobe s;
     accessories := accessories s; savedOutfits := savedOutfits s;
     isColorPickerOpen := isColorPickerOpen s;
     isLookbookOpen := isLookbookOpen s;
     selectedLayerIndexForRecolor := selectedLayerIndexForRecolor s;
     panelError := panelError s; heap := heap s;
     localStorage := localStorage s |}.

Definition setCurrentOutfitIndex (f : Z → Z) (s : State) : State :=
  {| modelImageUrl := modelImageUrl s; outfitHistory := outfitHistory s;
     currentOutfitIndex := f (currentOutfitIndex s); isLoading := isLoading s;
     loadingMessage := loadingMessage s; error := error s;
     currentPoseIndex := currentPoseIndex s;
     isSheetCollapsed := isSheetCollapsed s; wardrobe := wardrobe s;
     accessories := accessories s; savedOutfits := savedOutfits s;
     isColorPickerOpen := isColorPickerOpen s;
     isLookbookOpen := isLookbookOpen s;
     selectedLayerIndexForRecolor := selectedLayerIndexForRecolor s;
     panelError := panelError s; heap := heap s;
     localStorage := localStorage s |}.

Definition setIsLoading (v : bool) (s : State) : State :=
  {| modelImageUrl := modelImageUrl s; outfitHistory := outfitHistory s;
     currentOutfitIndex := currentOutfitIndex s; isLoading := v;
     loadingMessage := loadingMessage s; error := error s;
     currentPoseIndex := currentPoseIndex s;
     isSheetCollapsed := isSheetCollapsed s; wardrobe := wardrobe s;
     accessories := accessories s; savedOutfits := savedOutfits s;
     isColorPickerOpen := isColorPickerOpen s;
     isLookbookOpen := isLookbookOpen s;
     selectedLayerIndexForRecolor := selectedLayerIndexForRecolor s;
     panelError := panelError s; heap := heap s;
     localStorage := localStorage s |}.

Definition setLoadingMessage (v : string) (s : State) : State :=
  {| modelImageUrl := modelImageUrl s; outfitHistory := outfitHistory s;
     currentOutfitIndex := currentOutfitIndex s; isLoading := isLoading s;
     loadingMessage := v; error := error s;
     currentPoseIndex := currentPoseIndex s;
     isSheetCollapsed := isSheetCollapsed s; wardrobe := wardrobe s;
     accessories := accessories s; savedOutfits := savedOutfits s;
     isColorPickerOpen := isColorPickerOpen s;
     isLookbookOpen := isLookbookOpen s;
     selectedLayerIndexForRecolor := selectedLayerIndexForRecolor s;
     panelError := panelError s; heap := heap s;
     localStorage := localStorage s |}.

Definition setError (v : option ErrorMessage) (s : State) : State :=
  {| modelImageUrl := modelImageUrl s; outfitHistory := outfitHistory s;
     currentOutfitIndex := currentOutfitIndex s; isLoading := isLoading s;
     loadingMessage := loadingMessage s; error := v;
     currentPoseIndex := currentPoseIndex s;
     isSheetCollapsed := isSheetCollapsed s; wardrobe := wardrobe s;
     accessories := accessories s; savedOutfits := savedOutfits s;
     isColorPickerOpen := isColorPickerOpen s;
     isLookbookOpen := isLookbookOpen s;
     selectedLayerIndexForRecolor := selectedLayerIndexForRecolor s;
     panelError := panelError s; heap := heap s;
     localStorage := localStorage s |}.

Definition setCurrentPoseIndex (v : Z) (s : State) : State :=
  {| modelImageUrl := modelImageUrl s; outfitHistory := outfitHistory s;
     currentOutfitIndex := currentOutfitIndex s; isLoading := isLoading s;
     loadingMessage := loadingMessage s; error := error s;
     currentPoseIndex := v;
     isSheetCollapsed := isSheetCollapsed s; wardrobe := wardrobe s;
     accessories := accessories s; savedOutfits := savedOutfits s;
     isColorPickerOpen := isColorPickerOpen s;
     isLookbookOpen := isLookbookOpen s;
     selectedLayerIndexForRecolor := selectedLayerIndexForRecolor s;
     panelError := panelError s; heap := heap s;
     localStorage := localStorage s |}.

Definition setIsSheetCollapsed (v : bool) (s : State) : State :=
  {| modelImageUrl := modelImageUrl s; outfitHistory := outfitHistory s;
     currentOutfitIndex := currentOutfitIndex s; isLoading := isLoading s;
     loadingMessage := loadingMessage s; error := error s;
     currentPoseIndex := currentPoseIndex s;
     isSheetCollapsed := v; wardrobe := wardrobe s;
     accessories := accessories s; savedOutfits := savedOutfits s;
     isColorPickerOpen := isColorPickerOpen s;
     isLookbookOpen := isLookbookOpen s;
     selectedLayerIndexForRecolor := selectedLayerIndexForRecolor s;
     panelError := panelError s; heap := heap s;
     localStorage := localStorage s |}.

Definition setWardrobe (f : list WardrobeItem → list WardrobeItem)
    (s : State) : State :=
  {| modelImageUrl := modelImageUrl s; outfitHistory := outfitHistory s;
     currentOutfitIndex := currentOutfitIndex s; isLoading := isLoading s;
     loadingMessage := loadingMessage s; error := error s;
     currentPoseIndex := currentPoseIndex s;
     isSheetCollapsed := isSheetCollapsed s; wardrobe := f (wardrobe s);
     accessories := accessories s; savedOutfits := savedOutfits s;
     isColorPickerOpen := isColorPickerOpen s;
     isLookbookOpen := isLookbookOpen s;
     selectedLayerIndexForRecolor := selectedLayerIndexForRecolor s;
     panelError := panelError s; heap := heap s;
     localStorage := localStorage s |}.

Definition setAccessories (f : list WardrobeItem → list WardrobeItem)
    (s : State) : State :=
  {| modelImageUrl := modelImageUrl s; outfitHistory := outfitHistory s;
     currentOutfitIndex := currentOutfitIndex s; isLoading := isLoading s;
     loadingMessage := loadingMessage s; error := error s;
     currentPoseIndex := currentPoseIndex s;
     isSheetCollapsed := isSheetCollapsed s; wardrobe := wardrobe s;
     accessories := f (accessories s); savedOutfits := savedOutfits s;
     isColorPickerOpen := isColorPickerOpen s;
     isLookbookOpen := isLookbookOpen s;
     selectedLayerIndexForRecolor := selectedLayerIndexForRecolor s;
     panelError := panelError s; heap := heap s;
     localStorage := localStorage s |}.

Definition setSavedOutfits (v : list SavedOutfit) (s : State) : State :=
  {| modelImageUrl := modelImageUrl s; outfitHistory := outfitHistory s;
     currentOutfitIndex := currentOutfitIndex s; isLoading := isLoading s;
     loadingMessage := loadingMessage s; error := error s;
     currentPoseIndex := currentPoseIndex s;
     isSheetCollapsed := isSheetCollapsed s; wardrobe := wardrobe s;
     accessories := accessories s; savedOutfits := v;
     isColorPickerOpen := isColorPickerOpen s;
     isLookbookOpen := isLookbookOpen s;
     selectedLayerIndexForRecolor := selectedLayerIndexForRecolor s;
     panelError := panelError s; heap := heap s;
     localStorage := localStorage s |}.

Definition setIsColorPickerOpen (v : bool) (s : State) : State :=
  {| modelImageUrl := modelImageUrl s; outfitHistory := outfitHistory s;
     currentOutfitIndex := currentOutfitIndex s; isLoading := isLoading s;
     loadingMessage := loadingMessage s; error := error s;
     currentPoseIndex := currentPoseIndex s;
     isSheetCollapsed := isSheetCollapsed s; wardrobe := wardrobe s;
     accessories := accessories s; savedOutfits := savedOutfits s;
     isColorPickerOpen := v;
     isLookbookOpen := isLookbookOpen s;
     selectedLayerIndexForRecolor := selectedLayerIndexForRecolor s;
     panelError := panelError s; heap := heap s;
     localStorage := localStorage s |}.

Definition setSelectedLayerIndexForRecolor (v : option Z) (s : State)
    : State :=
  {| modelImageUrl := modelImageUrl s; outfitHistory := outfitHistory s;
     currentOutfitIndex := currentOutfitIndex s; isLoading := isLoading s;
     loadingMessage := loadingMessage s; error := error s;
     currentPoseIndex := currentPoseIndex s;
     isSheetCollapsed := isSheetCollapsed s; wardrobe := wardrobe s;
     accessories := accessories s; savedOutfits := savedOutfits s;
     isColorPickerOpen := isColorPickerOpen s;
     isLookbookOpen := isLookbookOpen s;
     selectedLayerIndexForRecolor := v;
     panelError := panelError s; heap := heap s;
     localStorage := localStorage s |}.

Definition setPanelError (v : option string) (s : State) : State :=
  {| modelImageUrl := modelImageUrl s; outfitHistory := outfitHistory s;
     currentOutfitIndex := currentOutfitIndex s; isLoading := isLoading s;
     loadingMessage := loadingMessage s; error := error s;
     currentPoseIndex := currentPoseIndex s;
     isSheetCollapsed := isSheetCollapsed s; wardrobe := wardrobe s;
     accessories := accessories s; savedOutfits := savedOutfits s;
     isColorPickerOpen := isColorPickerOpen s;
     isLookbookOpen := isLookbookOpen s;
     selectedLayerIndexForRecolor := selectedLayerIndexForRecolor s;
     panelError := v; heap := heap s;
     localStorage := localStorage s |}.

Definition updHeap (f : list PoseImages → list PoseImages) (s : State)
    : State :=
  {| modelImageUrl := modelImageUrl s; outfitHistory := outfitHistory s;
     currentOutfitIndex := currentOutfitIndex s; isLoading := isLoading s;
     loadingMessage := loadingMessage s; error := error s;
     currentPoseIndex := currentPoseIndex s;
     isSheetCollapsed := isSheetCollapsed s; wardrobe := wardrobe s;
     accessories := accessories s; savedOutfits := savedOutfits s;
     isColorPickerOpen := isColorPickerOpen s;
     isLookbookOpen := isLookbookOpen s;
     selectedLayerIndexForRecolor := selectedLayerIndexForRecolor s;
     panelError := panelError s; heap := f (heap s);
     localStorage := localStorage s |}.

Definition setLocalStorage (v : list StoredOutfit) (s : State) : State :=
  {| modelImageUrl := modelImageUrl s; outfitHistory := outfitHistory s;
     currentOutfitIndex := currentOutfitIndex s; isLoading := isLoading s;
     loadingMessage := loadingMessage s; error := error s;
     currentPoseIndex := currentPoseIndex s;
     isSheetCollapsed := isSheetCollapsed s; wardrobe := wardrobe s;
     accessories := accessories s; savedOutfits := savedOutfits s;
     isColorPickerOpen := isColorPickerOpen s;
     isLookbookOpen := isLookbookOpen s;
     selectedLayerIndexForRecolor := selectedLayerIndexForRecolor s;
     panelError := panelError s; heap := heap s;
     localStorage := Some v |}.

(** The object at an address.  Every address a layer holds was allocated
    when the layer was built (see [heap_wf] below); an address that was
    never allocated reads as the empty object. *)
Definition heap_get (h : list PoseImages) (a : loc) : PoseImages :=
  default [] (h !! a).

(** ** [src/wardrobe.ts] *)

Definition defaultWardrobe : list WardrobeItem := [
  {| id := "gemini-sweat"; name := "Gemini Sweat";
     url := "https://cdn.jsdelivr.net/gh/ammaarreshi/app-images@main/gemini-sweat-2.png";
     type := garment |};
  {| id := "gemini-tee"; name := "Gemini Tee";
     url := "https://cdn.jsdelivr.net/gh/ammaarreshi/app-images@main/Gemini-tee.png";
     type := garment |}
].

Definition defaultAccessories : list WardrobeItem := [
  {| id := "gold-necklace"; name := "Gold Necklace";
     url := "https://cdn.jsdelivr.net/gh/ammaarreshi/app-images@main/accessories/gold-necklace.png";
     type := accessory |};
  {| id := "sun-hat"; name := "Sun Hat";
     url := "https://cdn.jsdelivr.net/gh/ammaarreshi/app-images@main/accessories/sun-hat.png";
     type := accessory |};
  {| id := "aviator-sunglasses"; name := "Aviators";
     url := "https://cdn.jsdelivr.net/gh/ammaarreshi/app-images@main/accessories/aviator-sunglasses.png";
     type := accessory |}
].

(** ** The image service, seen from the handlers *)

(** Modelled from the spec: [src/services/geminiService] is not among the
    sources.  Section 6 of the spec gives it four operations, each
    answering with an image or failing; a call is recorded as a request,
    named as [App] imports it. *)
Inductive Request :=
| generateVirtualTryOnImage (base : string) (itemFile : File)
| generateAccessoryTryOnImage (base : string) (itemFile : File)
| generatePoseVariation (base : string) (poseInstruction : string)
| generateColorVariation (base : string) (itemName : string)
    (colorName : string).

(** The awaited promise either resolves with an image or rejects. *)
Inductive Response :=
| Resolved (image : string)
| Rejected (err : string).

(** ** Derived state ([useMemo] blocks of [App]) *)

Definition activeOutfitLayers (s : State) : list OutfitLayer :=
  js_slice0 (outfitHistory s) (currentOutfitIndex s + 1).

(** [layer.item?.id], then [filter(Boolean)]. *)
Definition activeItemIds (s : State) : list string :=
  omap (λ layer : OutfitLayer,
          let v := id <$> item layer in if truthy v then v else None)
       (activeOutfitLayers s).

Definition displayImageUrl (s : State) : option string :=
  if (length (outfitHistory s) =? 0)%nat then modelImageUrl s
  else
    match js_index (outfitHistory s) (currentOutfitIndex s) with
    | None => modelImageUrl s
    | Some currentLayer =>
        let poseInstruction := poseKey (currentPoseIndex s) in
        let images := heap_get (heap s) (poseImages currentLayer) in
        match pm_get images poseInstruction with
        | Some image => Some image
        | None => head (pm_values images)
        end
    end.

Definition availablePoseKeys (s : State) : list string :=
  if (length (outfitHistory s) =? 0)%nat then []
  else
    match js_index (outfitHistory s) (currentOutfitIndex s) with
    | None => []
    | Some currentLayer => pm_keys (heap_get (heap s) (poseImages currentLayer))
    end.

Definition selectedItemForRecolor (s : State) : option WardrobeItem :=
  match selectedLayerIndexForRecolor s with
  | None => None
  | Some k =>
      match js_index (outfitHistory s) k with
      | Some layer => item layer
      | None => None
      end
  end.

(** ** Handlers of [App] without a request *)

Definition handleModelFinalized (url : string) (s : State) : State :=
  let a := length (heap s) in
  let s := setModelImageUrl (Some url) s in
  let s := updHeap (λ h, h ++ [[(poseKey 0, url)]]) s in
  let s := setOutfitHistory (λ _, [{| item := None; poseImages := a |}]) s in
  setCurrentOutfitIndex (λ _, 0) s.

Definition handleStartOver (s : State) : State :=
  let s := setModelImageUrl None s in
  let s := setOutfitHistory (λ _, []) s in
  let s := setCurrentOutfitIndex (λ _, 0) s in
  let s := setIsLoading false s in
  let s := setLoadingMessage "" s in
  let s := setError None s in
  let s := setCurrentPoseIndex 0 s in
  let s := setIsSheetCollapsed false s in
  let s := setWardrobe (λ _, defaultWardrobe) s in
  setAccessories (λ _, defaultAccessories) s.

Definition handleRemoveLastGarment (s : State) : State :=
  if 0 <? currentOutfitIndex s then
    let s := setCurrentOutfitIndex (λ prevIndex, prevIndex - 1) s in
    setCurrentPoseIndex 0 s
  else s.

Definition handleOpenColorPicker (layerIndex : Z) (s : State) : State :=
  let s := setSelectedLayerIndexForRecolor (Some layerIndex) s in
  setIsColorPickerOpen true s.

(** [JSON.stringify] of the archive: each layer is written with the pose
    images its object holds at that moment. *)
Definition storeLayer (h : list PoseImages) (l : OutfitLayer) : StoredLayer :=
  {| st_item := item l; st_poseImages := heap_get h (poseImages l) |}.

Definition storeOutfit (h : list PoseImages) (o : SavedOutfit) : StoredOutfit :=
  {| st_id := so_id o; st_name := so_name o;
     st_previewImageUrl := previewImageUrl o;
     st_modelImageUrl := so_modelImageUrl o;
     st_layers := storeLayer h <$> layers o |}.

(** [JSON.parse] of the archive: every layer gets an object of its own. *)
Fixpoint parseLayers (ls : list StoredLayer) (h : list PoseImages)
    : list OutfitLayer * list PoseImages :=
  match ls with
  | [] => ([], h)
  | l :: rest =>
      let a := length h in
      let '(rest', h') := parseLayers rest (h ++ [st_poseImages l]) in
      ({| item := st_item l; poseImages := a |} :: rest', h')
  end.

Fixpoint parseOutfits (os : list StoredOutfit) (h : list PoseImages)
    : list SavedOutfit * list PoseImages :=
  match os with
  | [] => ([], h)
  | o :: rest =>
      let '(ls, h1) := parseLayers (st_layers o) h in
      let '(rest', h2) := parseOutfits rest h1 in
      ({| so_id := st_id o; so_name := st_name o;
          previewImageUrl := st_previewImageUrl o;
          so_modelImageUrl := st_modelImageUrl o; layers := ls |} :: rest',
       h2)
  end.

(** [name] is the answer of [window.prompt] ([None] when cancelled), [now]
    is [Date.now().toString()].  The two [alert]s are not part of the
    state.  [layers: outfitHistory] stores the array itself: the saved
    outfit holds the very layers of the live history. *)
Definition handleSaveOutfit (name : option string) (now : string)
    (s : State) : State :=
  if (length (outfitHistory s) <=? 1)%nat
     || negb (truthy (displayImageUrl s))
     || negb (truthy (modelImageUrl s))
  then s
  else
    if truthy name then
      let newOutfit :=
        {| so_id := now; so_name := default "" name;
           previewImageUrl := default "" (displayImageUrl s);
           so_modelImageUrl := default "" (modelImageUrl s);
           layers := outfitHistory s |} in
      let updatedOutfits := savedOutfits s ++ [newOutfit] in
      let s := setSavedOutfits updatedOutfits s in
      setLocalStorage (storeOutfit (heap s) <$> updatedOutfits) s
    else s.

(** [confirmed] is the answer of [window.confirm]. *)
Definition handleLoadOutfit (outfit : SavedOutfit) (confirmed : bool)
    (s : State) : State :=
  if confirmed then
    let s := setModelImageUrl (Some (so_modelImageUrl outfit)) s in
    let s := setOutfitHistory (λ _, layers outfit) s in
    let s :=
      setCurrentOutfitIndex (λ _, Z.of_nat (length (layers outfit)) - 1) s in
    let s := setCurrentPoseIndex 0 s in
    let s := setError None s in
    setIsSheetCollapsed false s
  else s.

Definition handleDeleteOutfit (outfitId : string) (confirmed : bool)
    (s : State) : State :=
  if confirmed then
    let updatedOutfits :=
      filter (λ o, so_id o ≠ outfitId) (savedOutfits s) in
    let s := setSavedOutfits updatedOutfits s in
    setLocalStorage (storeOutfit (heap s) <$> updatedOutfits) s
  else s.

(** ** [handleItemSelect]: add a garment or an accessory *)

(** What the closure of a call that reached its [await] still reads
    afterwards. *)
Record ItemSelectClosure := {
  isc_request : Request;
  isc_itemInfo : WardrobeItem;
  isc_currentPoseIndex : Z;
  isc_currentOutfitIndex : Z;
}.

Definition typeName (t : ItemType) : string :=
  match t with garment => "garment" | accessory => "accessory" end.

(** [nextLayer && nextLayer.item?.id === itemInfo.id] *)
Definition isCachedNext (s : State) (itemInfo : WardrobeItem) : bool :=
  match js_index (outfitHistory s) (currentOutfitIndex s + 1) with
  | Some nextLayer =>
      match item nextLayer with
      | Some it => String.eqb (id it) (id itemInfo)
      | None => false
      end
  | None => false
  end.

Definition handleItemSelect_begin (itemFile : File) (itemInfo : WardrobeItem)
    (s : State) : State * option ItemSelectClosure :=
  if negb (truthy (displayImageUrl s)) || isLoading s then (s, None)
  else if isCachedNext s itemInfo then
    let s := setCurrentOutfitIndex (λ prev, prev + 1) s in
    (setCurrentPoseIndex 0 s, None)
  else
    let base := default "" (displayImageUrl s) in
    let request :=
      match type itemInfo with
      | garment => generateVirtualTryOnImage base itemFile
      | accessory => generateAccessoryTryOnImage base itemFile
      end in
    let closure :=
      {| isc_request := request; isc_itemInfo := itemInfo;
         isc_currentPoseIndex := currentPoseIndex s;
         isc_currentOutfitIndex := currentOutfitIndex s |} in
    let s := setError None s in
    let s := setIsLoading true s in
    let s := setLoadingMessage ("Adding " +:+ name itemInfo +:+ "...") s in
    (s, Some closure).

(** [prev.find(item => item.id === itemInfo.id)] decides whether the item
    is added to the collection. *)
Definition addIfAbsent (itemInfo : WardrobeItem) (prev : list WardrobeItem)
    : list WardrobeItem :=
  if existsb (λ it, String.eqb (id it) (id itemInfo)) prev then prev
  else prev ++ [itemInfo].

Definition handleItemSelect_resolve (c : ItemSelectClosure) (r : Response)
    (s : State) : State :=
  let s :=
    match r with
    | Resolved newImageUrl =>
        let currentPoseInstruction := poseKey (isc_currentPoseIndex c) in
        let a := length (heap s) in
        let newLayer :=
          {| item := Some (isc_itemInfo c); poseImages := a |} in
        let s :=
          updHeap (λ h, h ++ [[(currentPoseInstruction, newImageUrl)]]) s in
        let s :=
          setOutfitHistory
            (λ prevHistory,
               let newHistory :=
                 js_slice0 prevHistory (isc_currentOutfitIndex c + 1) in
               newHistory ++ [newLayer]) s in
        let s := setCurrentOutfitIndex (λ prev, prev + 1) s in
        let listUpdater :=
          match type (isc_itemInfo c) with
          | garment => setWardrobe
          | accessory => setAccessories
          end in
        listUpdater (addIfAbsent (isc_itemInfo c)) s
    | Rejected err =>
        setError
          (Some (getFriendlyErrorMessage err
                   ("Failed to apply " +:+ typeName (type (isc_itemInfo c)))))
          s
    end in
  let s := setIsLoading false s in
  setLoadingMessage "" s.

(** The handler with the answer of the service supplied: nothing else
    runs between the request and its answer. *)
Definition handleItemSelect (itemFile : File) (itemInfo : WardrobeItem)
    (r : Response) (s : State) : State :=
  match handleItemSelect_begin itemFile itemInfo s with
  | (s1, Some c) => handleItemSelect_resolve c r s1
  | (s1, None) => s1
  end.

(** ** [handlePoseSelect]: change pose *)

Record PoseSelectClosure := {
  psc_request : Request;
  psc_poseInstruction : string;
  psc_prevPoseIndex : Z;
  psc_currentOutfitIndex : Z;
}.

(** When [outfitHistory[currentOutfitIndex]] is [undefined], reading its
    [poseImages] throws before any state was written: the handler's
    promise rejects and the state is as it was. *)
Definition handlePoseSelect_begin (newIndex : Z) (s : State)
    : State * option PoseSelectClosure :=
  if isLoading s || (length (outfitHistory s) =? 0)%nat
     || (newIndex =? currentPoseIndex s)
  then (s, None)
  else
    let poseInstruction := poseKey newIndex in
    match js_index (outfitHistory s) (currentOutfitIndex s) with
    | None => (s, None)
    | Some currentLayer =>
        let images := heap_get (heap s) (poseImages currentLayer) in
        if truthy (pm_get images poseInstruction) then
          (setCurrentPoseIndex newIndex s, None)
        else
          let baseImageForPoseChange := head (pm_values images) in
          if negb (truthy baseImageForPoseChange) then (s, None)
          else
            let closure :=
              {| psc_request :=
                   generatePoseVariation
                     (default "" baseImageForPoseChange) poseInstruction;
                 psc_poseInstruction := poseInstruction;
                 psc_prevPoseIndex := currentPoseIndex s;
                 psc_currentOutfitIndex := currentOutfitIndex s |} in
            let s := setError None s in
            let s := setIsLoading true s in
            let s := setLoadingMessage "Changing pose..." s in
            let s := setCurrentPoseIndex newIndex s in
            (s, Some closure)
    end.

(** The updater copies the array and then assigns into the [poseImages]
    object of the layer at the captured index: the array is the same list
    of layers, the object changes in the store.  (Were that layer missing
    from the array at that moment, the updater would throw while React
    renders; the store is left as it is in that case.) *)
Definition handlePoseSelect_resolve (c : PoseSelectClosure) (r : Response)
    (s : State) : State :=
  let s :=
    match r with
    | Resolved newImageUrl =>
        match js_index (outfitHistory s) (psc_currentOutfitIndex c) with
        | Some updatedLayer =>
            updHeap
              (λ h,
                 <[poseImages updatedLayer :=
                     pm_set (heap_get h (poseImages updatedLayer))
                       (psc_poseInstruction c) newImageUrl]> h) s
        | None => s
        end
    | Rejected err =>
        let s :=
          setError
            (Some (getFriendlyErrorMessage err "Failed to change pose")) s in
        setCurrentPoseIndex (psc_prevPoseIndex c) s
    end in
  let s := setIsLoading false s in
  setLoadingMessage "" s.

Definition handlePoseSelect (newIndex : Z) (r : Response) (s : State)
    : State :=
  match handlePoseSelect_begin newIndex s with
  | (s1, Some c) => handlePoseSelect_resolve c r s1
  | (s1, None) => s1
  end.

(** ** [handleRecolorGarment]: recolor a layer *)

Record RecolorClosure := {
  rc_request : Request;
  rc_selectedLayerIndexForRecolor : Z;
  rc_currentPoseIndex : Z;
}.

Definition handleRecolorGarment_begin (colorName : string) (s : State)
    : State * option RecolorClosure :=
  match selectedLayerIndexForRecolor s with
  | None => (s, None)
  | Some k =>
      if negb (truthy (displayImageUrl s)) then (s, None)
      else
        match js_index (outfitHistory s) k with
        | None => (s, None)
        | Some layerToRecolor =>
            match item layerToRecolor with
            | None => (s, None)
            | Some it =>
                let closure :=
                  {| rc_request :=
                       generateColorVariation
                         (default "" (displayImageUrl s)) (name it) colorName;
                     rc_selectedLayerIndexForRecolor := k;
                     rc_currentPoseIndex := currentPoseIndex s |} in
                let s := setError None s in
                let s := setIsLoading true s in
                let s :=
                  setLoadingMessage
                    ("Recoloring to " +:+ colorName +:+ "...") s in
                (s, Some closure)
            end
        end
  end.

(** [prevHistory.map((layer, index) => ...)]: the layer at the captured
    index is replaced by a copy whose [poseImages] is the new object at
    address [a]; the other layers are kept as they are. *)
Definition recolorLayers (k : Z) (a : loc) (prevHistory : list OutfitLayer)
    : list OutfitLayer :=
  imap (λ index layer,
          if Z.of_nat index =? k
          then {| item := item layer; poseImages := a |}
          else layer) prevHistory.

Definition handleRecolorGarment_resolve (c : RecolorClosure) (r : Response)
    (s : State) : State :=
  let s :=
    match r with
    | Resolved newImageUrl =>
        let currentPoseInstruction := poseKey (rc_currentPoseIndex c) in
        let k := rc_selectedLayerIndexForRecolor c in
        match js_index (outfitHistory s) k with
        | Some _ =>
            let a := length (heap s) in
            let s :=
              updHeap (λ h, h ++ [[(currentPoseInstruction, newImageUrl)]])
                s in
            setOutfitHistory (recolorLayers k a) s
        | None => s
        end
    | Rejected err =>
        setError
          (Some (getFriendlyErrorMessage err "Failed to recolor item")) s
    end in
  let s := setIsLoading false s in
  let s := setLoadingMessage "" s in
  let s := setIsColorPickerOpen false s in
  setSelectedLayerIndexForRecolor None s.

Definition handleRecolorGarment (colorName : string) (r : Response)
    (s : State) : State :=
  match handleRecolorGarment_begin colorName s with
  | (s1, Some c) => handleRecolorGarment_resolve c r s1
  | (s1, None) => s1
  end.

(** ** The components that call the handlers *)

(** [handleItemSelect] called as the closure of an earlier render.  The
    values the handler reads ([displayImageUrl], [isLoading],
    [outfitHistory], [currentOutfitIndex], [currentPoseIndex]) are those
    of [render], the state of the render that created the closure; its
    state writes go to [live], the state at the time of the call.  Called
    in the render it belongs to, it is [handleItemSelect_begin]. *)
Definition handleItemSelect_begin_from (render : State) (itemFile : File)
    (itemInfo : WardrobeItem) (live : State)
    : State * option ItemSelectClosure :=
  if negb (truthy (displayImageUrl render)) || isLoading render
  then (live, None)
  else if isCachedNext render itemInfo then
    let live := setCurrentOutfitIndex (λ prev, prev + 1) live in
    (setCurrentPoseIndex 0 live, None)
  else
    let base := default "" (displayImageUrl render) in
    let request :=
      match type itemInfo with
      | garment => generateVirtualTryOnImage base itemFile
      | accessory => generateAccessoryTryOnImage base itemFile
      end in
    let closure :=
      {| isc_request := request; isc_itemInfo := itemInfo;
         isc_currentPoseIndex := currentPoseIndex render;
         isc_currentOutfitIndex := currentOutfitIndex render |} in
    let live := setError None live in
    let live := setIsLoading true live in
    let live :=
      setLoadingMessage ("Adding " +:+ name itemInfo +:+ "...") live in
    (live, Some closure).

(** [WardrobePanel.handleItemClick] (second document of [src/App.tsx]),
    split at its [await urlToFile(...)].  What the click keeps across the
    await: the item, and the [onItemSelect] prop of the render in which
    the click happened, which is the [handleItemSelect] of that render. *)
Record ItemClickClosure := {
  icc_item : WardrobeItem;
  icc_render : State;
}.

(** Up to the await: the guard of the panel and [setError(null)]. *)
Definition handleItemClick_begin (it : WardrobeItem) (s : State)
    : State * option ItemClickClosure :=
  if isLoading s || bool_decide (id it ∈ activeItemIds s) then (s, None)
  else
    (setPanelError None s, Some {| icc_item := it; icc_render := s |}).

(** After the await, on the state as it is then: [file] is the outcome of
    [urlToFile] ([None] when it rejects).  The handler called is the one
    of the click's render, whatever happened since. *)
Definition handleItemClick_resume (k : ItemClickClosure) (file : option File)
    (live : State) : State * option ItemSelectClosure :=
  match file with
  | Some f => handleItemSelect_begin_from (icc_render k) f (icc_item k) live
  | None =>
      (setPanelError
         (Some "Failed to load wardrobe item. This is often a CORS issue. Check the developer console for details.")
         live, None)
  end.

(** The click with nothing else running while the file is made. *)
Definition handleItemClick (it : WardrobeItem) (file : option File)
    (s : State) : State * option ItemSelectClosure :=
  match handleItemClick_begin it s with
  | (s1, Some k) => handleItemClick_resume k file s1
  | (s1, None) => (s1, None)
  end.

(** [OutfitStack]: the recolor and remove buttons are rendered on the last
    row of the active layers only, and never on the base row. *)
Definition stackButtonsRendered (s : State) (index : nat) : bool :=
  (0 <? Z.of_nat index)
  && (Z.of_nat index =? Z.of_nat (length (activeOutfitLayers s)) - 1).

Definition clickRecolorButton (index : nat) (s : State) : State :=
  if stackButtonsRendered s index
  then handleOpenColorPicker (Z.of_nat index) s else s.

Definition clickRemoveButton (index : nat) (s : State) : State :=
  if stackButtonsRendered s index then handleRemoveLastGarment s else s.

(** [ColorPickerModal]: rendered when a garment is selected and the modal
    is open; [handleConfirmRecolor] calls [onColorSelect] (which is
    [handleRecolorGarment]) and then [onClose]. *)
Definition colorPickerRendered (s : State) : bool :=
  match selectedItemForRecolor s with
  | Some _ => isColorPickerOpen s
  | None => false
  end.

Definition handleConfirmRecolor_begin (selectedColor : string) (s : State)
    : State * option RecolorClosure :=
  if colorPickerRendered s then
    let '(s1, c) := handleRecolorGarment_begin selectedColor s in
    (setIsColorPickerOpen false s1, c)
  else (s, None).

(** The save button of [App]: [disabled={outfitHistory.length <= 1 ||
    isLoading}]. *)
Definition clickSaveButton (name : option string) (now : string) (s : State)
    : State :=
  if (length (outfitHistory s) <=? 1)%nat || isLoading s then s
  else handleSaveOutfit name now s.

(** [SavedOutfitsPanel]: the load button of the [k]-th saved outfit is
    [disabled={isLoading}]. *)
Definition clickLoadButton (k : nat) (confirmed : bool) (s : State) : State :=
  if isLoading s then s
  else
    match savedOutfits s !! k with
    | Some outfit => handleLoadOutfit outfit confirmed s
    | None => s
    end.

(** ** The session as a machine *)

(** The state [App] starts in. *)
Definition initialState : State :=
  {| modelImageUrl := None; outfitHistory := []; currentOutfitIndex := 0;
     isLoading := false; loadingMessage := ""; error := None;
     currentPoseIndex := 0; isSheetCollapsed := false;
     wardrobe := defaultWardrobe; accessories := defaultAccessories;
     savedOutfits := []; isColorPickerOpen := false;
     isLookbookOpen := false; selectedLayerIndexForRecolor := None;
     panelError := None; heap := []; localStorage := None |}.

(** The effect run once after mounting: the archive found in
    [localStorage], if any, becomes [savedOutfits]. *)
Definition mount (stored : option (list StoredOutfit)) : State :=
  match stored with
  | Some os =>
      let '(saved, h) := parseOutfits os [] in
      {| modelImageUrl := None; outfitHistory := []; currentOutfitIndex := 0;
         isLoading := false; loadingMessage := ""; error := None;
         currentPoseIndex := 0; isSheetCollapsed := false;
         wardrobe := defaultWardrobe; accessories := defaultAccessories;
         savedOutfits := saved; isColorPickerOpen := false;
         isLookbookOpen := false; selectedLayerIndexForRecolor := None;
         panelError := None; heap := h; localStorage := Some os |}
  | None => initialState
  end.

(** One user action, carried to its end: an action that calls the image
    service comes with the service's answer.  The first eleven are the
    handlers of [App], called with any arguments; the last five are the
    buttons of the components, which reach a handler only when rendered
    and enabled. *)
Inductive Action :=
| ModelFinalized (url : string)
| StartOver
| ItemSelect (itemFile : File) (itemInfo : WardrobeItem) (r : Response)
| ItemClick (it : WardrobeItem) (file : option File) (r : Response)
| RemoveLastGarment
| PoseSelect (newIndex : Z) (r : Response)
| OpenColorPicker (layerIndex : Z)
| RecolorGarment (colorName : string) (r : Response)
| SaveOutfit (name : option string) (now : string)
| LoadOutfit (outfit : SavedOutfit) (confirmed : bool)
| DeleteOutfit (outfitId : string) (confirmed : bool)
| ClickRecolorButton (index : nat)
| ClickRemoveButton (index : nat)
| ConfirmRecolor (selectedColor : string) (r : Response)
| ClickSaveButton (name : option string) (now : string)
| ClickLoadButton (k : nat) (confirmed : bool).

Definition run (a : Action) (s : State) : State :=
  match a with
  | ModelFinalized url => handleModelFinalized url s
  | StartOver => handleStartOver s
  | ItemSelect itemFile itemInfo r => handleItemSelect itemFile itemInfo r s
  | ItemClick it file r =>
      match handleItemClick it file s with
      | (s1, Some c) => handleItemSelect_resolve c r s1
      | (s1, None) => s1
      end
  | RemoveLastGarment => handleRemoveLastGarment s
  | PoseSelect newIndex r => handlePoseSelect newIndex r s
  | OpenColorPicker layerIndex => handleOpenColorPicker layerIndex s
  | RecolorGarment colorName r => handleRecolorGarment colorName r s
  | SaveOutfit name now => handleSaveOutfit name now s
  | LoadOutfit outfit confirmed => handleLoadOutfit outfit confirmed s
  | DeleteOutfit outfitId confirmed => handleDeleteOutfit outfitId confirmed s
  | ClickRecolorButton index => clickRecolorButton index s
  | ClickRemoveButton index => clickRemoveButton index s
  | ConfirmRecolor selectedColor r =>
      match handleConfirmRecolor_begin selectedColor s with
      | (s1, Some c) => handleRecolorGarment_resolve c r s1
      | (s1, None) => s1
      end
  | ClickSaveButton name now => clickSaveButton name now s
  | ClickLoadButton k confirmed => clickLoadButton k confirmed s
  end.

Definition runAll (acts : list Action) (s : State) : State :=
  foldl (λ st a, run a st) s acts.

(** The position invariant of the outfit history. *)
Definition positionInvariant (s : State) : Prop :=
  outfitHistory s ≠ [] →
  0 ≤ currentOutfitIndex s < Z.of_nat (length (outfitHistory s)).

(** The form of the invariant that every action carries from state to
    state: an empty history comes with no usable model image (before a
    model is chosen, after start over) or with position -1 (after loading
    an outfit without layers). *)
Definition sessionInvariant (s : State) : Prop :=
  (outfitHistory s = []
   ∧ (truthy (modelImageUrl s) = false ∨ currentOutfitIndex s = -1))
  ∨ 0 ≤ currentOutfitIndex s < Z.of_nat (length (outfitHistory s)).

(** Every address held by a layer of the history is allocated. *)
Definition heap_wf (s : State) : Prop :=
  Forall (λ layer, (poseImages layer < length (heap s))%nat)
    (outfitHistory s).

(** ** Sequences of adds and removals *)

(** An add-item call is successful when the handler accepts it (an image
    is displayed and nothing is in flight) and the service, if called,
    resolves. *)
Definition addAccepted (s : State) : bool :=
  truthy (displayImageUrl s) && negb (isLoading s).

Definition AddCall : Type := File * WardrobeItem * string.

Definition addItem (a : AddCall) (s : State) : State :=
  let '(itemFile, itemInfo, image) := a in
  handleItemSelect itemFile itemInfo (Resolved image) s.

Fixpoint addItems (adds : list AddCall) (s : State) : State :=
  match adds with
  | [] => s
  | a :: rest => addItems rest (addItem a s)
  end.

Fixpoint addsSucceed (adds : list AddCall) (s : State) : bool :=
  match adds with
  | [] => true
  | a :: rest => addAccepted s && addsSucceed rest (addItem a s)
  end.

Definition removeItems (n : nat) (s : State) : State :=
  Nat.iter n handleRemoveLastGarment s.

(** ** Sessions used as examples *)

Definition geminiSweat : WardrobeItem :=
  {| id := "gemini-sweat"; name := "Gemini Sweat";
     url := "https://cdn.jsdelivr.net/gh/ammaarreshi/app-images@main/gemini-sweat-2.png";
     type := garment |}.

Definition geminiTee : WardrobeItem :=
  {| id := "gemini-tee"; name := "Gemini Tee";
     url := "https://cdn.jsdelivr.net/gh/ammaarreshi/app-images@main/Gemini-tee.png";
     type := garment |}.

Definition sunHat : WardrobeItem :=
  {| id := "sun-hat"; name := "Sun Hat";
     url := "https://cdn.jsdelivr.net/gh/ammaarreshi/app-images@main/accessories/sun-hat.png";
     type := accessory |}.

(** A model photo was chosen. *)
Definition sessionBase : State :=
  runAll [ModelFinalized "model.png"] (mount None).

(** The tee was added on top of the model. *)
Definition sessionTee : State :=
  runAll [ItemSelect "tee-file" geminiTee (Resolved "model+tee.png")]
    sessionBase.

(** The tee was added and then removed: it stays in the history, after
    the active position. *)
Definition sessionUndone : State :=
  runAll [RemoveLastGarment] sessionTee.

(** As [sessionUndone], with a change to the second pose in flight. *)
Definition sessionUndoneBusy : State :=
  (handlePoseSelect_begin 1 sessionUndone).1.

(** The model was turned to the second pose. *)
Definition sessionPosed : State :=
  runAll [PoseSelect 1 (Resolved "model@pose1.png")] sessionBase.

(** The tee outfit was saved. *)
Definition sessionSaved : State :=
  runAll [SaveOutfit (Some "look") "1700000000000"] sessionTee.

(** After the save, the tee layer was turned to the second pose. *)
Definition sessionSavedThenPosed : State :=
  runAll [PoseSelect 1 (Resolved "model+tee@pose1.png")] sessionSaved.

(** The tee is worn and the sun hat is being added: the request is in
    flight and the session is Busy. *)
Definition sessionAddingHat : State :=
  (handleItemSelect_begin "hat-file" sunHat sessionTee).1.

(** While the hat is being added, the palette button of the tee row is
    clicked. *)
Definition sessionAddingHatPicker : State :=
  clickRecolorButton 1 sessionAddingHat.

(** The tee is worn and its color picker is open. *)
Definition sessionPicker : State :=
  clickRecolorButton 1 sessionTee.

(** ** [WardrobePanel.handleFileChange]: upload of a custom item *)

Inductive WardrobeTab := garmentsTab | accessoriesTab.

(** The file picked in the upload input: the [File] itself, its [name]
    and its MIME [type]. *)
Record Upload := {
  up_file : File;
  up_name : string;
  up_type : string;
}.

(** [files] is [e.target.files[0]] ([None] when no file was picked),
    [activeTab] the tab of the panel, [now] the digits of [Date.now()],
    [objectUrl] the value of [URL.createObjectURL(file)]. *)
Definition handleFileChange (files : option Upload) (activeTab : WardrobeTab)
    (now objectUrl : string) (s : State) : State * option ItemSelectClosure :=
  match files with
  | None => (s, None)
  | Some file =>
      if negb (String.prefix "image/" (up_type file)) then
        (setPanelError (Some "Please select an image file.") s, None)
      else
        let customItemInfo :=
          {| id := "custom-" +:+ now; name := up_name file; url := objectUrl;
             type := match activeTab with
                     | garmentsTab => garment
                     | accessoriesTab => accessory
                     end |} in
        handleItemSelect_begin (up_file file) customItemInfo s
  end.

(** ** [LookbookModal] ([src/unnamed/part_000]): download and share *)

(** What the two handlers do that can be seen from outside, in the order
    it happens: writes of the [isProcessing] state, console errors,
    alerts, the click on the download link, the call of
    [navigator.share]. *)
Inductive LookbookEvent :=
| SetIsProcessing (b : bool)
| ConsoleError (label : string)
| Alert (msg : string)
| LinkClick (download href : string)
| NavigatorShare (fileName fileType : string).

(** [handleDownload] up to its [await toPng(...)]: [ref] says whether
    [lookbookRef.current] is set.  The second component says whether
    [toPng] was called. *)
Definition handleDownload_begin (ref : bool) : list LookbookEvent * bool :=
  if ref then ([SetIsProcessing true], true) else ([], false).

(** [handleDownload] after the [await]: [png] is the data URL, or [None]
    when [toPng] rejects. *)
Definition handleDownload_resolve (png : option string)
    : list LookbookEvent :=
  match png with
  | Some dataUrl =>
      [LinkClick "my-lookbook.png" dataUrl; SetIsProcessing false]
  | None =>
      [ConsoleError "oops, something went wrong!";
       Alert "Failed to create lookbook image. Please try again.";
       SetIsProcessing false]
  end.

Definition handleDownload (ref : bool) (png : option string)
    : list LookbookEvent :=
  let '(events, called) := handleDownload_begin ref in
  if called then events ++ handleDownload_resolve png else events.

(** What the browser and the image library answer during one call of
    [handleShare]. *)
Record ShareWorld := {
  refCurrent : bool;
  shareApi : bool;
  toBlobResult : option (option string);
  canShareFile : bool;
  shareResolves : bool;
  refAtFallback : bool;
  toPngResult : option string;
}.

(** The [catch] block of [handleShare] calls [handleDownload()] without
    awaiting it: the download runs up to its own [await], then the
    [finally] of [handleShare] clears [isProcessing], and the rest of the
    download comes after. *)
Definition shareFailed (w : ShareWorld) : list LookbookEvent :=
  let '(events, called) := handleDownload_begin (refAtFallback w) in
  [ConsoleError "Share failed:";
   Alert "Sharing failed. The image will be downloaded instead."]
  ++ events ++ [SetIsProcessing false]
  ++ (if called then handleDownload_resolve (toPngResult w) else []).

Definition handleShare (w : ShareWorld) : list LookbookEvent :=
  if negb (refCurrent w) then []
  else if negb (shareApi w) then
    Alert "Your browser doesn't support sharing. The image will be downloaded instead."
    :: handleDownload (refCurrent w) (toPngResult w)
  else
    SetIsProcessing true ::
    match toBlobResult w with
    | Some (Some blobType) =>
        if canShareFile w then
          NavigatorShare "my-lookbook.png" blobType ::
          (if shareResolves w then [SetIsProcessing false]
           else shareFailed w)
        else shareFailed w
    | Some None => shareFailed w
    | None => shareFailed w
    end.

(** The value of [isProcessing] after a sequence of events. *)
Definition isProcessingAfter (init : bool) (events : list LookbookEvent)
    : bool :=
  foldl (λ b e, match e with SetIsProcessing b' => b' | _ => b end)
    init events.

Definition isLinkClick (e : LookbookEvent) : bool :=
  match e with LinkClick _ _ => true | _ => false end.

Definition isAlert (e : LookbookEvent) : bool :=
  match e with Alert _ => true | _ => false end.

(** The share went through: the API is there, a blob was made, the
    browser accepts the file and [navigator.share] resolved. *)
Definition shared (w : ShareWorld) : bool :=
  shareApi w
  && match toBlobResult w with Some (Some _) => true | _ => false end
  && canShareFile w && shareResolves w.

(** ** Invariants of the store and of the collections *)

Definition layersAllocated (h : list PoseImages) (ls : list OutfitLayer)
    : Prop :=
  Forall (λ l, (poseImages l < length h)%nat) ls.

(** Every pose-image object holds an image, and every layer of the
    history and of the archive holds the address of an object. *)
Definition storeInvariant (s : State) : Prop :=
  Forall (λ pm : PoseImages, pm ≠ []) (heap s)
  ∧ layersAllocated (heap s) (outfitHistory s)
  ∧ Forall (λ o, layersAllocated (heap s) (layers o)) (savedOutfits s).

(** The archive found in [localStorage] has an image on every layer. *)
Definition storedWithImages (stored : option (list StoredOutfit)) : Prop :=
  match stored with
  | Some os =>
      Forall (λ o, Forall (λ l, st_poseImages l ≠ []) (st_layers o)) os
  | None => True
  end.

(** The outfits handed to [handleLoadOutfit] are outfits of the archive,
    as they are when the load buttons are the only callers. *)
Fixpoint loadsFromArchive (acts : list Action) (s : State) : Prop :=
  match acts with
  | [] => True
  | a :: rest =>
      match a with
      | LoadOutfit outfit _ => outfit ∈ savedOutfits s
      | _ => True
      end
      ∧ loadsFromArchive rest (run a s)
  end.

Definition idsNoDup (l : list WardrobeItem) : Prop := NoDup (id <$> l).


(** The collection [handleItemSelect] registers an item of type [t] in
    (its [listUpdater]), and the other one. *)
Definition listOf (t : ItemType) (s : State) : list WardrobeItem :=
  match t with garment => wardrobe s | accessory => accessories s end.

Definition otherListOf (t : ItemType) (s : State) : list WardrobeItem :=
  match t with garment => accessories s | accessory => wardrobe s end.

(** ** The session with actions that overlap *)

(** One piece of an action: a whole action run to its end, the part of a
    handler up to its [await], or the part after it.  A continuation is
    run with a closure and on the state as it is then; nothing ties the
    closure to the state, so every order in which the code can run its
    pieces is a sequence of these, whatever was in flight. *)
Inductive Piece :=
| Whole (a : Action)
| BeginItemSelect (render : State) (itemFile : File) (itemInfo : WardrobeItem)
| BeginItemClick (it : WardrobeItem)
| ResumeItemClick (k : ItemClickClosure) (file : option File)
| BeginFileChange (files : option Upload) (activeTab : WardrobeTab)
    (now objectUrl : string)
| BeginPoseSelect (newIndex : Z)
| BeginRecolorGarment (colorName : string)
| BeginConfirmRecolor (selectedColor : string)
| ResolveItemSelect (c : ItemSelectClosure) (r : Response)
| ResolvePoseSelect (c : PoseSelectClosure) (r : Response)
| ResolveRecolorGarment (c : RecolorClosure) (r : Response).

Definition runPiece (p : Piece) (s : State) : State :=
  match p with
  | Whole a => run a s
  | BeginItemSelect render itemFile itemInfo =>
      (handleItemSelect_begin_from render itemFile itemInfo s).1
  | BeginItemClick it => (handleItemClick_begin it s).1
  | ResumeItemClick k file => (handleItemClick_resume k file s).1
  | BeginFileChange files activeTab now objectUrl =>
      (handleFileChange files activeTab now objectUrl s).1
  | BeginPoseSelect newIndex => (handlePoseSelect_begin newIndex s).1
  | BeginRecolorGarment colorName =>
      (handleRecolorGarment_begin colorName s).1
  | BeginConfirmRecolor selectedColor =>
      (handleConfirmRecolor_begin selectedColor s).1
  | ResolveItemSelect c r => handleItemSelect_resolve c r s
  | ResolvePoseSelect c r => handlePoseSelect_resolve c r s
  | ResolveRecolorGarment c r => handleRecolorGarment_resolve c r s
  end.

Definition runPieces (ps : list Piece) (s : State) : State :=
  foldl (λ st p, runPiece p st) s ps.

(** As [loadsFromArchive], for pieces. *)
Fixpoint piecesLoadFromArchive (ps : list Piece) (s : State) : Prop :=
  match ps with
  | [] => True
  | p :: rest =>
      match p with
      | Whole (LoadOutfit outfit _) => outfit ∈ savedOutfits s
      | _ => True
      end
      ∧ piecesLoadFromArchive rest (runPiece p s)
  end.

(** Two wardrobe clicks, the second before the file of the first is
    ready; then both files, then both answers of the service. *)
Definition clickTee : ItemClickClosure :=
  {| icc_item := geminiTee; icc_render := sessionBase |}.

Definition clickSweat : ItemClickClosure :=
  {| icc_item := geminiSweat;
     icc_render := (handleItemClick_begin geminiTee sessionBase).1 |}.

Definition addTeeFromBase : ItemSelectClosure :=
  {| isc_request := generateVirtualTryOnImage "model.png" "tee-file";
     isc_itemInfo := geminiTee; isc_currentPoseIndex := 0;
     isc_currentOutfitIndex := 0 |}.

Definition addSweatFromBase : ItemSelectClosure :=
  {| isc_request := generateVirtualTryOnImage "model.png" "sweat-file";
     isc_itemInfo := geminiSweat; isc_currentPoseIndex := 0;
     isc_currentOutfitIndex := 0 |}.

Definition sessionTwoClicks : State :=
  runPieces
    [BeginItemClick geminiTee; BeginItemClick geminiSweat;
     ResumeItemClick clickTee (Some "tee-file");
     ResumeItemClick clickSweat (Some "sweat-file");
     ResolveItemSelect addTeeFromBase (Resolved "model+tee.png");
     ResolveItemSelect addSweatFromBase (Resolved "model+sweat.png")]
    sessionBase.

(** * Properties *)

(** ** The wardrobe click with nothing in between *)

Lemma handleItemSelect_begin_from_self itemFile itemInfo s :
  handleItemSelect_begin_from s itemFile itemInfo s
  = handleItemSelect_begin itemFile itemInfo s.
Proof. reflexivity. Qed.

(** When nothing else runs while [urlToFile] makes the file, the click is
    the panel guard followed by [handleItemSelect] on the same state. *)
Lemma handleItemClick_back_to_back it file s :
  handleItemClick it file s
  = if isLoading s || bool_decide (id it ∈ activeItemIds s) then (s, None)
    else
      match file with
      | Some f => handleItemSelect_begin f it (setPanelError None s)
      | None =>
          (setPanelError
             (Some "Failed to load wardrobe item. This is often a CORS issue. Check the developer console for details.")
             (setPanelError None s), None)
      end.
Proof.
  unfold handleItemClick, handleItemClick_begin.
  destruct (isLoading s || bool_decide (id it ∈ activeItemIds s));
    [reflexivity |].
  by destruct file.
Qed.

(** ** Arrays and pose-image objects *)

Lemma js_index_nonneg {A} (a : list A) (i : Z) :
  0 ≤ i → js_index a i = a !! Z.to_nat i.
Proof.
  intros Hi. unfold js_index.
  destruct (Z.ltb_spec i 0); [lia | reflexivity].
Qed.

Lemma js_index_Some {A} (a : list A) (i : Z) (x : A) :
  js_index a i = Some x → 0 ≤ i < Z.of_nat (length a).
Proof.
  unfold js_index. destruct (Z.ltb_spec i 0); [discriminate |].
  intros Hx. apply lookup_lt_Some in Hx. lia.
Qed.

Lemma js_index_in_range {A} (a : list A) (i : Z) :
  0 ≤ i < Z.of_nat (length a) → is_Some (js_index a i).
Proof.
  intros Hi. rewrite js_index_nonneg by lia.
  apply lookup_lt_is_Some. lia.
Qed.

Lemma js_slice0_nonneg {A} (a : list A) (e : Z) :
  0 ≤ e → js_slice0 a e = take (Z.to_nat e) a.
Proof.
  intros He. unfold js_slice0.
  destruct (Z.ltb_spec e 0); [lia |].
  destruct (Z.min_spec e (Z.of_nat (length a))) as [[Hlt ->] | [Hge ->]].
  - reflexivity.
  - rewrite Nat2Z.id. rewrite !take_ge by lia. reflexivity.
Qed.

Lemma js_slice0_length {A} (a : list A) (e : Z) :
  0 ≤ e ≤ Z.of_nat (length a) →
  Z.of_nat (length (js_slice0 a e)) = e.
Proof.
  intros He. rewrite js_slice0_nonneg by lia.
  rewrite length_take. lia.
Qed.

Lemma pm_get_set_eq (pm : PoseImages) (k v : string) :
  pm_get (pm_set pm k v) k = Some v.
Proof.
  induction pm as [| [k' v'] rest IH]; simpl.
  - by rewrite String.eqb_refl.
  - destruct (String.eqb k' k) eqn:E; simpl.
    + by rewrite String.eqb_refl.
    + by rewrite E.
Qed.

Lemma pm_get_set_ne (pm : PoseImages) (k k2 v : string) :
  k ≠ k2 → pm_get (pm_set pm k v) k2 = pm_get pm k2.
Proof.
  intros Hne. induction pm as [| [k' v'] rest IH]; simpl.
  - destruct (String.eqb_spec k k2); [done | reflexivity].
  - destruct (String.eqb_spec k' k) as [-> | Hk]; simpl.
    + destruct (String.eqb_spec k k2); [done | reflexivity].
    + destruct (String.eqb_spec k' k2); [reflexivity | apply IH].
Qed.

(** ** What a handler that issued a request leaves behind *)

Lemma handleItemSelect_begin_request itemFile itemInfo s s1 c :
  handleItemSelect_begin itemFile itemInfo s = (s1, Some c) →
  truthy (displayImageUrl s) = true ∧ isLoading s = false
  ∧ isCachedNext s itemInfo = false
  ∧ s1 = setLoadingMessage ("Adding " +:+ name itemInfo +:+ "...")
           (setIsLoading true (setError None s))
  ∧ isc_itemInfo c = itemInfo
  ∧ isc_currentPoseIndex c = currentPoseIndex s
  ∧ isc_currentOutfitIndex c = currentOutfitIndex s.
Proof.
  unfold handleItemSelect_begin.
  destruct (truthy (displayImageUrl s)); simpl; [| discriminate].
  destruct (isLoading s); simpl; [discriminate |].
  destruct (isCachedNext s itemInfo); [discriminate |].
  intros [= <- <-]. simpl. repeat split; reflexivity.
Qed.

Lemma handleItemSelect_begin_busy itemFile itemInfo s :
  isLoading s = true → handleItemSelect_begin itemFile itemInfo s = (s, None).
Proof.
  intros Hb. unfold handleItemSelect_begin. rewrite Hb.
  by rewrite orb_true_r.
Qed.

Lemma handlePoseSelect_begin_busy newIndex s :
  isLoading s = true → handlePoseSelect_begin newIndex s = (s, None).
Proof. intros Hb. unfold handlePoseSelect_begin. by rewrite Hb. Qed.

Lemma clickSaveButton_busy name now s :
  isLoading s = true → clickSaveButton name now s = s.
Proof.
  intros Hb. unfold clickSaveButton. rewrite Hb. by rewrite orb_true_r.
Qed.

Lemma clickLoadButton_busy k confirmed s :
  isLoading s = true → clickLoadButton k confirmed s = s.
Proof. intros Hb. unfold clickLoadButton. by rewrite Hb. Qed.

(** ** Appending a layer *)

(** C1.  On the success path of add-item, from an active position that
    is not the end of the history: the history becomes its prefix through
    the active position followed by the new layer, the active position
    advances by one, the new layer is the last element, nothing that was
    stored after the active position remains, and the layers up to the
    active position are kept. *)
Theorem append_truncates_history itemFile itemInfo image s s1 c :
  handleItemSelect_begin itemFile itemInfo s = (s1, Some c) →
  0 ≤ currentOutfitIndex s →
  currentOutfitIndex s + 1 < Z.of_nat (length (outfitHistory s)) →
  let s2 := handleItemSelect_resolve c (Resolved image) s1 in
  let newLayer :=
    {| item := Some itemInfo; poseImages := length (heap s) |} in
  handleItemSelect itemFile itemInfo (Resolved image) s = s2
  ∧ outfitHistory s2
    = take (Z.to_nat (currentOutfitIndex s + 1)) (outfitHistory s)
      ++ [newLayer]
  ∧ currentOutfitIndex s2 = currentOutfitIndex s + 1
  ∧ last (outfitHistory s2) = Some newLayer
  ∧ Z.of_nat (length (outfitHistory s2)) = currentOutfitIndex s + 2
  ∧ (∀ j, j ≤ currentOutfitIndex s →
       js_index (outfitHistory s2) j = js_index (outfitHistory s) j)
  ∧ heap_get (heap s2) (poseImages newLayer)
    = [(poseKey (currentPoseIndex s), image)].
Proof.
  intros Hb Hlo Hhi s2 newLayer.
  assert (Hrun : handleItemSelect itemFile itemInfo (Resolved image) s = s2).
  { unfold handleItemSelect. by rewrite Hb. }
  destruct (handleItemSelect_begin_request _ _ _ _ _ Hb)
    as (_ & _ & _ & -> & Hi & Hp & Ho).
  assert (Hh : outfitHistory s2
    = take (Z.to_nat (currentOutfitIndex s + 1)) (outfitHistory s)
      ++ [newLayer]).
  { subst s2 newLayer. unfold handleItemSelect_resolve.
    rewrite Hi, Ho. destruct (type itemInfo); simpl;
      by rewrite js_slice0_nonneg by lia. }
  split; [exact Hrun |]. split; [exact Hh |].
  split.
  { subst s2. unfold handleItemSelect_resolve.
    destruct (type (isc_itemInfo c)); reflexivity. }
  split; [rewrite Hh; apply last_snoc |].
  split.
  { rewrite Hh, length_app, length_take. simpl. lia. }
  split.
  { intros j Hj. unfold js_index. destruct (Z.ltb_spec j 0); [reflexivity |].
    rewrite Hh, lookup_app_l by (rewrite length_take; lia).
    apply lookup_take_lt. lia. }
  subst s2 newLayer. unfold handleItemSelect_resolve, heap_get.
  rewrite Hp. destruct (type (isc_itemInfo c)); simpl;
    by rewrite list_lookup_middle.
Qed.

(** The examples compute to the expected shape. *)
Example sessionUndone_shape :
  outfitHistory sessionUndone
  = [ {| item := None; poseImages := 0%nat |};
      {| item := Some geminiTee; poseImages := 1%nat |} ]
  ∧ currentOutfitIndex sessionUndone = 0
  ∧ heap sessionUndone
    = [ [(poseKey 0, "model.png")]; [(poseKey 0, "model+tee.png")] ].
Proof. vm_compute. done. Qed.

Lemma append_truncates_history_witness :
  0 ≤ currentOutfitIndex sessionUndone
  ∧ currentOutfitIndex sessionUndone + 1
    < Z.of_nat (length (outfitHistory sessionUndone))
  ∧ outfitHistory
      (handleItemSelect "sweat-file" geminiSweat (Resolved "model+sweat.png")
         sessionUndone)
    = [ {| item := None; poseImages := 0%nat |};
        {| item := Some geminiSweat; poseImages := 2%nat |} ].
Proof.
  assert (E : handleItemSelect_begin "sweat-file" geminiSweat sessionUndone
    = ((handleItemSelect_begin "sweat-file" geminiSweat sessionUndone).1,
       Some {| isc_request :=
                 generateVirtualTryOnImage "model.png" "sweat-file";
               isc_itemInfo := geminiSweat; isc_currentPoseIndex := 0;
               isc_currentOutfitIndex := 0 |}))
    by (vm_compute; reflexivity).
  assert (H0 : 0 ≤ currentOutfitIndex sessionUndone) by (by vm_compute).
  assert (H1 : currentOutfitIndex sessionUndone + 1
               < Z.of_nat (length (outfitHistory sessionUndone)))
    by (by vm_compute).
  destruct (append_truncates_history _ _ "model+sweat.png" _ _ _ E H0 H1)
    as (Hrun & Hh & _).
  split; [exact H0 |]. split; [exact H1 |].
  rewrite Hrun, Hh. vm_compute. reflexivity.
Defined.

(** ** Re-selecting the item of the next layer *)

(** The guard comes first: with a pose change in flight the handler
    returns before it looks at the next layer, cached or not, as every
    new add must while the session is Busy. *)
Lemma cached_item_ignored_while_busy :
  isCachedNext sessionUndoneBusy geminiTee = true
  ∧ isLoading sessionUndoneBusy = true
  ∧ handleItemSelect_begin "tee-file" geminiTee sessionUndoneBusy
    = (sessionUndoneBusy, None)
  ∧ currentOutfitIndex
      (handleItemSelect "tee-file" geminiTee (Resolved "unused.png")
         sessionUndoneBusy)
    ≠ currentOutfitIndex sessionUndoneBusy + 1.
Proof. vm_compute. repeat split; discriminate. Qed.

(** C2.  For an add-item request that the handler accepts (nothing in
    flight, an image displayed), when the layer after the active position
    holds an item with the selected id, no request is issued and the
    state changes in two fields only: the active position advances by
    one and the pose position becomes 0.  History, pose images, wardrobe,
    accessories and archive are as they were. *)
Theorem cache_hit_only_advances itemFile itemInfo r s nextLayer it :
  isLoading s = false →
  truthy (displayImageUrl s) = true →
  js_index (outfitHistory s) (currentOutfitIndex s + 1) = Some nextLayer →
  item nextLayer = Some it →
  id it = id itemInfo →
  let s' := handleItemSelect itemFile itemInfo r s in
  handleItemSelect_begin itemFile itemInfo s = (s', None)
  ∧ s' = setCurrentPoseIndex 0 (setCurrentOutfitIndex (λ prev, prev + 1) s)
  ∧ currentOutfitIndex s' = currentOutfitIndex s + 1
  ∧ currentPoseIndex s' = 0
  ∧ outfitHistory s' = outfitHistory s
  ∧ heap s' = heap s
  ∧ wardrobe s' = wardrobe s
  ∧ accessories s' = accessories s
  ∧ savedOutfits s' = savedOutfits s
  ∧ isLoading s' = false.
Proof.
  intros Hidle Hshown Hnext Hit Hid s'.
  assert (Hc : isCachedNext s itemInfo = true).
  { unfold isCachedNext. rewrite Hnext, Hit, Hid. apply String.eqb_refl. }
  assert (Hb : handleItemSelect_begin itemFile itemInfo s
    = (setCurrentPoseIndex 0 (setCurrentOutfitIndex (λ prev, prev + 1) s),
       None)).
  { unfold handleItemSelect_begin. by rewrite Hshown, Hidle, Hc. }
  assert (Hs : s'
    = setCurrentPoseIndex 0 (setCurrentOutfitIndex (λ prev, prev + 1) s)).
  { subst s'. unfold handleItemSelect. by rewrite Hb. }
  rewrite Hs. repeat split; try reflexivity; try assumption.
Qed.

Lemma cache_hit_only_advances_witness :
  isLoading sessionUndone = false
  ∧ truthy (displayImageUrl sessionUndone) = true
  ∧ currentOutfitIndex
      (handleItemSelect "tee-file" geminiTee (Rejected "never asked")
         sessionUndone) = 1
  ∧ outfitHistory
      (handleItemSelect "tee-file" geminiTee (Rejected "never asked")
         sessionUndone) = outfitHistory sessionUndone.
Proof.
  assert (H0 : isLoading sessionUndone = false) by (by vm_compute).
  assert (H1 : truthy (displayImageUrl sessionUndone) = true)
    by (by vm_compute).
  assert (H2 : js_index (outfitHistory sessionUndone)
                 (currentOutfitIndex sessionUndone + 1)
               = Some {| item := Some geminiTee; poseImages := 1%nat |})
    by (by vm_compute).
  destruct (cache_hit_only_advances "tee-file" geminiTee
              (Rejected "never asked") sessionUndone _ geminiTee
              H0 H1 H2 eq_refl eq_refl)
    as (_ & _ & Hidx & _ & Hh & _).
  split; [exact H0 |]. split; [exact H1 |].
  split; [rewrite Hidx; by vm_compute | exact Hh].
Defined.

(** ** Changing pose *)

(** When a pose change calls the service: nothing in flight, another
    pose than the selected one, no image for it on the active layer, and
    a first image on that layer to start from.  A request stopped at one
    of the guards issues no call and writes nothing. *)
Lemma handlePoseSelect_begin_issues newIndex s currentLayer base :
  isLoading s = false →
  newIndex ≠ currentPoseIndex s →
  js_index (outfitHistory s) (currentOutfitIndex s) = Some currentLayer →
  truthy (pm_get (heap_get (heap s) (poseImages currentLayer))
            (poseKey newIndex)) = false →
  head (pm_values (heap_get (heap s) (poseImages currentLayer))) = Some base →
  truthy (Some base) = true →
  ∃ s1 c,
    handlePoseSelect_begin newIndex s = (s1, Some c)
    ∧ psc_request c = generatePoseVariation base (poseKey newIndex)
    ∧ psc_prevPoseIndex c = currentPoseIndex s.
Proof.
  intros Hidle Hne Hl Hnone Hbase Hok.
  unfold handlePoseSelect_begin. rewrite Hidle.
  pose proof (js_index_Some _ _ _ Hl) as Hr.
  destruct (Nat.eqb_spec (length (outfitHistory s)) 0); [lia |].
  destruct (Z.eqb_spec newIndex (currentPoseIndex s)); [done |].
  simpl. rewrite Hl, Hnone, Hbase, Hok. simpl.
  by do 2 eexists.
Qed.

(** C3.  A pose change that calls the service targets a pose the active
    layer has no image for; the pose position already is the new index
    when the handler reaches its [await]; and if the service rejects,
    whatever happened in between, the pose position is set back to its
    value before the attempt and neither the history nor any pose-image
    object is written. *)
Theorem pose_failure_reverts newIndex err s s1 c :
  handlePoseSelect_begin newIndex s = (s1, Some c) →
  (∃ currentLayer,
     js_index (outfitHistory s) (currentOutfitIndex s) = Some currentLayer
     ∧ truthy (pm_get (heap_get (heap s) (poseImages currentLayer))
                 (poseKey newIndex)) = false)
  ∧ currentPoseIndex s1 = newIndex
  ∧ isLoading s1 = true
  ∧ outfitHistory s1 = outfitHistory s
  ∧ heap s1 = heap s
  ∧ (∀ st,
       let s2 := handlePoseSelect_resolve c (Rejected err) st in
       currentPoseIndex s2 = currentPoseIndex s
       ∧ outfitHistory s2 = outfitHistory st
       ∧ heap s2 = heap st
       ∧ isLoading s2 = false)
  ∧ (let s2 := handlePoseSelect newIndex (Rejected err) s in
     currentPoseIndex s2 = currentPoseIndex s
     ∧ outfitHistory s2 = outfitHistory s
     ∧ heap s2 = heap s
     ∧ currentOutfitIndex s2 = currentOutfitIndex s).
Proof.
  intros Hb.
  assert (Hrun : handlePoseSelect newIndex (Rejected err) s
                 = handlePoseSelect_resolve c (Rejected err) s1).
  { unfold handlePoseSelect. by rewrite Hb. }
  rewrite Hrun. clear Hrun.
  unfold handlePoseSelect_begin in Hb.
  destruct (isLoading s || (length (outfitHistory s) =? 0)%nat
            || (newIndex =? currentPoseIndex s)); [discriminate |].
  destruct (js_index (outfitHistory s) (currentOutfitIndex s))
    as [currentLayer |] eqn:Hl; [| discriminate].
  destruct (truthy (pm_get (heap_get (heap s) (poseImages currentLayer))
                      (poseKey newIndex))) eqn:Hp; [discriminate |].
  destruct (negb (truthy (head (pm_values
              (heap_get (heap s) (poseImages currentLayer))))));
    [discriminate |].
  injection Hb as <- <-. simpl.
  split; [by exists currentLayer |].
  repeat split; reflexivity.
Qed.

Lemma pose_failure_reverts_witness :
  currentPoseIndex (handlePoseSelect_begin 1 sessionTee).1 = 1
  ∧ currentPoseIndex (handlePoseSelect 1 (Rejected "overloaded") sessionTee)
    = 0
  ∧ heap (handlePoseSelect 1 (Rejected "overloaded") sessionTee)
    = heap sessionTee.
Proof.
  assert (E : handlePoseSelect_begin 1 sessionTee
    = ((handlePoseSelect_begin 1 sessionTee).1,
       Some {| psc_request :=
                 generatePoseVariation "model+tee.png" (poseKey 1);
               psc_poseInstruction := poseKey 1; psc_prevPoseIndex := 0;
               psc_currentOutfitIndex := 1 |}))
    by (vm_compute; reflexivity).
  destruct (pose_failure_reverts 1 "overloaded" sessionTee _ _ E)
    as (_ & Hopt & _ & _ & _ & _ & Hrev & _ & Hheap & _).
  split; [exact Hopt |]. split; [rewrite Hrev; by vm_compute | exact Hheap].
Defined.

(** ** Adding items and removing them again *)

Lemma addAccepted_true s :
  addAccepted s = true →
  truthy (displayImageUrl s) = true ∧ isLoading s = false.
Proof.
  unfold addAccepted. intros [H1 H2]%andb_true_iff.
  split; [exact H1 |]. by destruct (isLoading s).
Qed.

Lemma isCachedNext_in_range s itemInfo :
  isCachedNext s itemInfo = true →
  currentOutfitIndex s + 1 < Z.of_nat (length (outfitHistory s)).
Proof.
  unfold isCachedNext.
  destruct (js_index (outfitHistory s) (currentOutfitIndex s + 1))
    as [l |] eqn:E; [| discriminate].
  intros _. apply js_index_Some in E. lia.
Qed.

(** The fields written by the success path of [handleItemSelect]. *)
Lemma handleItemSelect_resolved c image s :
  let s' := handleItemSelect_resolve c (Resolved image) s in
  outfitHistory s'
  = js_slice0 (outfitHistory s) (isc_currentOutfitIndex c + 1)
    ++ [ {| item := Some (isc_itemInfo c); poseImages := length (heap s) |} ]
  ∧ currentOutfitIndex s' = currentOutfitIndex s + 1
  ∧ heap s' = heap s ++ [[(poseKey (isc_currentPoseIndex c), image)]]
  ∧ currentPoseIndex s' = currentPoseIndex s
  ∧ modelImageUrl s' = modelImageUrl s
  ∧ isLoading s' = false.
Proof.
  unfold handleItemSelect_resolve.
  destruct (type (isc_itemInfo c)); repeat split; reflexivity.
Qed.

(** One successful add from a valid position: the position advances by
    one and stays valid, the layers through the old position are kept,
    and the store only grows. *)
Lemma addItem_step a s :
  0 ≤ currentOutfitIndex s < Z.of_nat (length (outfitHistory s)) →
  addAccepted s = true →
  let s' := addItem a s in
  currentOutfitIndex s' = currentOutfitIndex s + 1
  ∧ currentOutfitIndex s' < Z.of_nat (length (outfitHistory s'))
  ∧ take (Z.to_nat (currentOutfitIndex s + 1)) (outfitHistory s')
    = take (Z.to_nat (currentOutfitIndex s + 1)) (outfitHistory s)
  ∧ (∃ extra, heap s' = heap s ++ extra).
Proof.
  intros Hpos [Hshown Hidle]%addAccepted_true.
  destruct a as [[itemFile itemInfo] image].
  unfold addItem, handleItemSelect.
  destruct (handleItemSelect_begin itemFile itemInfo s) as [s1 [c |]] eqn:Hb.
  - destruct (handleItemSelect_begin_request _ _ _ _ _ Hb)
      as (_ & _ & _ & -> & _ & _ & Ho).
    destruct (handleItemSelect_resolved c image
                (setLoadingMessage ("Adding " +:+ name itemInfo +:+ "...")
                   (setIsLoading true (setError None s))))
      as (Hh & Hi & Hm & _).
    cbv zeta. rewrite Hh, Hi, Hm, Ho. cbn [outfitHistory currentOutfitIndex
      heap setLoadingMessage setIsLoading setError].
    rewrite js_slice0_nonneg by lia.
    split; [reflexivity |].
    split; [rewrite length_app, length_take; simpl; lia |].
    split; [apply take_app_length'; rewrite length_take; lia |].
    by eexists.
  - unfold handleItemSelect_begin in Hb. rewrite Hshown, Hidle in Hb.
    cbn [negb orb] in Hb.
    destruct (isCachedNext s itemInfo) eqn:Hc; [| discriminate].
    apply isCachedNext_in_range in Hc.
    injection Hb as <-. cbn.
    repeat split; [lia | by exists []; rewrite app_nil_r].
Qed.

Lemma addItems_spec adds : ∀ s,
  0 ≤ currentOutfitIndex s < Z.of_nat (length (outfitHistory s)) →
  addsSucceed adds s = true →
  let s' := addItems adds s in
  currentOutfitIndex s' = currentOutfitIndex s + Z.of_nat (length adds)
  ∧ currentOutfitIndex s' < Z.of_nat (length (outfitHistory s'))
  ∧ take (Z.to_nat (currentOutfitIndex s + 1)) (outfitHistory s')
    = take (Z.to_nat (currentOutfitIndex s + 1)) (outfitHistory s)
  ∧ (∃ extra, heap s' = heap s ++ extra).
Proof.
  induction adds as [| a rest IH]; intros s Hpos Hok; simpl in *.
  - repeat split; [lia | lia | by exists []; rewrite app_nil_r].
  - apply andb_true_iff in Hok as [Hacc Hrest].
    destruct (addItem_step a s Hpos Hacc) as (Hi & Hlt & Htake & [e1 He1]).
    destruct (IH (addItem a s) ltac:(lia) Hrest)
      as (Hi' & Hlt' & Htake' & [e2 He2]).
    split; [lia |]. split; [exact Hlt' |]. split.
    + rewrite Hi in Htake'.
      apply (f_equal (take (Z.to_nat (currentOutfitIndex s + 1)))) in Htake'.
      rewrite !take_take in Htake'.
      replace (Z.to_nat (currentOutfitIndex s + 1)
                 `min` Z.to_nat (currentOutfitIndex s + 1 + 1))%nat
        with (Z.to_nat (currentOutfitIndex s + 1)) in Htake' by lia.
      by rewrite Htake'.
    + exists (e1 ++ e2). by rewrite He2, He1, app_assoc.
Qed.

Lemma removeItems_spec n : ∀ s,
  Z.of_nat n ≤ currentOutfitIndex s →
  let s' := removeItems n s in
  currentOutfitIndex s' = currentOutfitIndex s - Z.of_nat n
  ∧ outfitHistory s' = outfitHistory s
  ∧ heap s' = heap s
  ∧ modelImageUrl s' = modelImageUrl s
  ∧ currentPoseIndex s' = (if n is O then currentPoseIndex s else 0).
Proof.
  induction n as [| n IH]; intros s Hn; simpl.
  - repeat split. lia.
  - destruct (IH s ltac:(lia)) as (Hi & Hh & Hm & Hu & _).
    fold (removeItems n s). unfold handleRemoveLastGarment.
    destruct (Z.ltb_spec 0 (currentOutfitIndex (removeItems n s))); [| lia].
    simpl. repeat split; [lia | done | done | done].
Qed.

(** The displayed image is a function of the active layer, of the images
    of that layer and of the pose position. *)
Lemma displayImageUrl_agree s s' layer :
  js_index (outfitHistory s) (currentOutfitIndex s) = Some layer →
  js_index (outfitHistory s') (currentOutfitIndex s') = Some layer →
  heap_get (heap s') (poseImages layer) = heap_get (heap s) (poseImages layer) →
  currentPoseIndex s' = currentPoseIndex s →
  displayImageUrl s' = displayImageUrl s.
Proof.
  intros Hl Hl' Hheap Hpose. unfold displayImageUrl.
  pose proof (js_index_Some _ _ _ Hl) as Hr.
  pose proof (js_index_Some _ _ _ Hl') as Hr'.
  destruct (Nat.eqb_spec (length (outfitHistory s)) 0); [lia |].
  destruct (Nat.eqb_spec (length (outfitHistory s')) 0); [lia |].
  by rewrite Hl, Hl', Hheap, Hpose.
Qed.

Lemma heap_get_app h extra a :
  (a < length h)%nat → heap_get (h ++ extra) a = heap_get h a.
Proof. intros Ha. unfold heap_get. by rewrite lookup_app_l. Qed.

(** C4, the claim as written fails: the model stands in the second pose,
    the tee is added and removed again; the active position is the same,
    the displayed image is not (the removal reset the pose). *)
Lemma undo_changes_display_image :
  let adds := [("tee-file", geminiTee, "model@pose1+tee.png")] in
  let s' := removeItems (length adds) (addItems adds sessionPosed) in
  addsSucceed adds sessionPosed = true
  ∧ currentOutfitIndex s' = currentOutfitIndex sessionPosed
  ∧ displayImageUrl sessionPosed = Some "model@pose1.png"
  ∧ displayImageUrl s' = Some "model.png"
  ∧ displayImageUrl s' ≠ displayImageUrl sessionPosed.
Proof. vm_compute. repeat split; discriminate. Qed.

(** C4, amended.  From a state with a valid active position, after n
    successful adds and n removals the active position is the one before
    the adds.  The removals leave the pose position at 0, so the
    displayed image is the one the state before the adds shows at pose
    position 0; it is the image displayed before the adds when the pose
    position was 0 then. *)
Theorem undo_restores_position adds s :
  0 ≤ currentOutfitIndex s < Z.of_nat (length (outfitHistory s)) →
  heap_wf s →
  addsSucceed adds s = true →
  let s' := removeItems (length adds) (addItems adds s) in
  currentOutfitIndex s' = currentOutfitIndex s
  ∧ (adds ≠ [] → currentPoseIndex s' = 0)
  ∧ (adds ≠ [] →
     displayImageUrl s' = displayImageUrl (setCurrentPoseIndex 0 s))
  ∧ (currentPoseIndex s = 0 → displayImageUrl s' = displayImageUrl s).
Proof.
  intros Hpos Hwf Hok s'.
  destruct (addItems_spec adds s Hpos Hok) as (Hi & Hlt & Htake & [e He]).
  destruct (removeItems_spec (length adds) (addItems adds s) ltac:(lia))
    as (Hi' & Hh' & Hm' & _ & Hp').
  fold s' in Hi', Hh', Hm', Hp'.
  destruct (js_index_in_range (outfitHistory s) (currentOutfitIndex s) Hpos)
    as [layer Hl].
  assert (Hl' : js_index (outfitHistory s') (currentOutfitIndex s')
                = Some layer).
  { rewrite Hh', Hi', Hi.
    replace (currentOutfitIndex s + Z.of_nat (length adds)
             - Z.of_nat (length adds)) with (currentOutfitIndex s) by lia.
    rewrite js_index_nonneg in Hl |- * by lia.
    rewrite <- (lookup_take_lt _ (Z.to_nat (currentOutfitIndex s + 1)))
      by lia.
    rewrite Htake. rewrite lookup_take_lt by lia. exact Hl. }
  assert (Ha : (poseImages layer < length (heap s))%nat).
  { rewrite js_index_nonneg in Hl by lia.
    unfold heap_wf in Hwf. rewrite Forall_lookup in Hwf.
    exact (Hwf _ _ Hl). }
  assert (Hheap : heap_get (heap s') (poseImages layer)
                  = heap_get (heap s) (poseImages layer)).
  { rewrite Hm', He. by apply heap_get_app. }
  assert (Hzero : adds ≠ [] → currentPoseIndex s' = 0).
  { intros Hne. rewrite Hp'. destruct adds; [done | reflexivity]. }
  split; [lia |]. split; [exact Hzero |]. split.
  - intros Hne. apply (displayImageUrl_agree _ _ layer); try done.
    simpl. by apply Hzero.
  - intros Hp0. apply (displayImageUrl_agree _ _ layer); try done.
    rewrite Hp'. destruct adds; [reflexivity | by rewrite Hp0].
Qed.

Lemma undo_restores_position_witness :
  let adds := [("tee-file", geminiTee, "model+tee.png");
               ("hat-file", sunHat, "model+tee+hat.png")] in
  let s' := removeItems (length adds) (addItems adds sessionBase) in
  addsSucceed adds sessionBase = true
  ∧ currentOutfitIndex s' = 0
  ∧ displayImageUrl s' = Some "model.png".
Proof.
  intros adds s'.
  assert (H0 : 0 ≤ currentOutfitIndex sessionBase
               < Z.of_nat (length (outfitHistory sessionBase)))
    by (by vm_compute).
  assert (H1 : heap_wf sessionBase).
  { unfold heap_wf. repeat constructor. }
  assert (H2 : addsSucceed adds sessionBase = true) by (by vm_compute).
  destruct (undo_restores_position adds sessionBase H0 H1 H2)
    as (Hi & _ & _ & Hd).
  split; [exact H2 |]. split.
  - transitivity (currentOutfitIndex sessionBase); [exact Hi | by vm_compute].
  - transitivity (displayImageUrl sessionBase);
      [apply Hd; by vm_compute | by vm_compute].
Defined.

(** ** Saving an outfit *)

(** What [handleSaveOutfit] appends to the archive: the outfit holds the
    layers of the live history, addresses included. *)
Lemma handleSaveOutfit_layers name now s :
  savedOutfits (handleSaveOutfit name now s) = savedOutfits s
  ∨ ∃ o, savedOutfits (handleSaveOutfit name now s) = savedOutfits s ++ [o]
         ∧ layers o = outfitHistory s.
Proof.
  unfold handleSaveOutfit.
  destruct ((length (outfitHistory s) <=? 1)%nat
            || negb (truthy (displayImageUrl s))
            || negb (truthy (modelImageUrl s))); [by left |].
  destruct (truthy name); [| by left].
  right. eexists. split; reflexivity.
Qed.

(** C5, the code at the failing input: the tee outfit is saved, then the
    tee layer is turned to the second pose.  The archive in memory was
    not written by the pose change, and the copy in [localStorage] still
    has one image for the tee, but the saved outfit now reads two: its
    tee layer is the layer of the live history, and the pose change
    assigned into that layer's [poseImages] object. *)
Theorem saved_outfit_follows_live_history :
  savedOutfits sessionSavedThenPosed = savedOutfits sessionSaved
  ∧ localStorage sessionSavedThenPosed = localStorage sessionSaved
  ∧ (st_layers <$> (storeOutfit (heap sessionSaved)
                      <$> savedOutfits sessionSaved))
    = [ [ {| st_item := None;
             st_poseImages := [(poseKey 0, "model.png")] |};
          {| st_item := Some geminiTee;
             st_poseImages := [(poseKey 0, "model+tee.png")] |} ] ]
  ∧ (st_layers <$> (storeOutfit (heap sessionSavedThenPosed)
                      <$> savedOutfits sessionSavedThenPosed))
    = [ [ {| st_item := None;
             st_poseImages := [(poseKey 0, "model.png")] |};
          {| st_item := Some geminiTee;
             st_poseImages := [(poseKey 0, "model+tee.png");
                               (poseKey 1, "model+tee@pose1.png")] |} ] ].
Proof. vm_compute. repeat split. Qed.

(** ** Actions while a request is in flight *)

(** C6, the code at the failing input: while the sun hat is being added
    (Busy), the palette button of the tee row is rendered and opens the
    color picker; confirming a color there issues a request to the
    service, and its answer replaces the tee layer and clears the Busy
    flag although the add is still in flight. *)
Theorem recolor_runs_while_busy :
  isLoading sessionAddingHat = true
  ∧ stackButtonsRendered sessionAddingHat 1 = true
  ∧ colorPickerRendered sessionAddingHatPicker = true
  ∧ isLoading sessionAddingHatPicker = true
  ∧ ∃ c,
      (handleConfirmRecolor_begin "#dc2626" sessionAddingHatPicker).2 = Some c
      ∧ rc_request c
        = generateColorVariation "model+tee.png" "Gemini Tee" "#dc2626"
      ∧ let s2 :=
          handleRecolorGarment_resolve c (Resolved "model+red-tee.png")
            (handleConfirmRecolor_begin "#dc2626" sessionAddingHatPicker).1 in
        outfitHistory s2 ≠ outfitHistory sessionAddingHat
        ∧ js_index (outfitHistory s2) 1
          = Some {| item := Some geminiTee; poseImages := 2%nat |}
        ∧ heap_get (heap s2) 2%nat = [(poseKey 0, "model+red-tee.png")]
        ∧ isLoading s2 = false.
Proof.
  vm_compute. repeat split.
  eexists. repeat split. discriminate.
Qed.

(** The other three actions are stopped while Busy: the two handlers by
    their own guard, the save by its disabled button. *)
Lemma busy_stops_add_pose_save s :
  isLoading s = true →
  (∀ itemFile itemInfo,
     handleItemSelect_begin itemFile itemInfo s = (s, None))
  ∧ (∀ it file, handleItemClick it file s = (s, None))
  ∧ (∀ newIndex, handlePoseSelect_begin newIndex s = (s, None))
  ∧ (∀ name now, clickSaveButton name now s = s).
Proof.
  intros Hb. split; [| split; [| split]].
  - intros. by apply handleItemSelect_begin_busy.
  - intros. rewrite handleItemClick_back_to_back. by rewrite Hb.
  - intros. by apply handlePoseSelect_begin_busy.
  - intros. by apply clickSaveButton_busy.
Qed.

(** A consequence of the recolor running while Busy: once its answer has
    cleared the Busy flag, a second add is accepted while the first is
    still in flight; both closures captured the same active position, and
    when both have resolved the active position is past the end of the
    history. *)
Lemma overlapping_adds_leave_position_out_of_range :
  ∃ cRecolor cHat cSweat,
    let s0 := sessionTee in
    let '(s1, oHat) := handleItemSelect_begin "hat-file" sunHat s0 in
    let s2 := clickRecolorButton 1 s1 in
    let '(s3, oRecolor) := handleConfirmRecolor_begin "#dc2626" s2 in
    let s4 := handleRecolorGarment_resolve cRecolor (Rejected "busy") s3 in
    let '(s5, oSweat) := handleItemSelect_begin "sweat-file" geminiSweat s4 in
    let s6 := handleItemSelect_resolve cHat (Resolved "hat.png") s5 in
    let s7 := handleItemSelect_resolve cSweat (Resolved "sweat.png") s6 in
    oHat = Some cHat ∧ oRecolor = Some cRecolor ∧ oSweat = Some cSweat
    ∧ length (outfitHistory s7) = 3%nat
    ∧ currentOutfitIndex s7 = 3
    ∧ ¬ positionInvariant s7.
Proof.
  do 3 eexists. vm_compute.
  split; [reflexivity |]. split; [reflexivity |]. split; [reflexivity |].
  split; [reflexivity |]. split; [reflexivity |].
  intros H. destruct H as [_ H]; [discriminate | discriminate H].
Qed.

(** ** The pose position when the active layer changes *)

(** C7, the claim as written fails: the model stands in the second pose
    and the tee is added; the active layer changes from the base to the
    new layer, and the pose position stays 1. *)
Lemma append_keeps_pose_position :
  let s' :=
    handleItemSelect "tee-file" geminiTee (Resolved "model@pose1+tee.png")
      sessionPosed in
  currentOutfitIndex sessionPosed = 0
  ∧ currentOutfitIndex s' = 1
  ∧ currentPoseIndex s' = 1
  ∧ currentPoseIndex s' ≠ 0
  ∧ js_index (outfitHistory s') 1
    = Some {| item := Some geminiTee; poseImages := 1%nat |}
  ∧ heap_get (heap s') 1%nat = [(poseKey 1, "model@pose1+tee.png")].
Proof. vm_compute. repeat split; discriminate. Qed.

(** C7, amended.  The pose position becomes 0 when the active layer
    changes by re-selecting the item of the next layer, by removing the
    last item, or by loading a saved outfit.  Appending a newly generated
    layer leaves the pose position as it is, and the image of the new
    layer is stored under the pose instruction at that position. *)
Theorem pose_reset_on_layer_change :
  (∀ itemFile itemInfo r s,
     isLoading s = false → truthy (displayImageUrl s) = true →
     isCachedNext s itemInfo = true →
     let s' := handleItemSelect itemFile itemInfo r s in
     currentOutfitIndex s' = currentOutfitIndex s + 1
     ∧ currentPoseIndex s' = 0)
  ∧ (∀ s,
       0 < currentOutfitIndex s →
       let s' := handleRemoveLastGarment s in
       currentOutfitIndex s' = currentOutfitIndex s - 1
       ∧ currentPoseIndex s' = 0)
  ∧ (∀ outfit s,
       let s' := handleLoadOutfit outfit true s in
       outfitHistory s' = layers outfit
       ∧ currentOutfitIndex s' = Z.of_nat (length (layers outfit)) - 1
       ∧ currentPoseIndex s' = 0)
  ∧ (∀ itemFile itemInfo image s s1 c,
       handleItemSelect_begin itemFile itemInfo s = (s1, Some c) →
       let s' := handleItemSelect itemFile itemInfo (Resolved image) s in
       currentOutfitIndex s' = currentOutfitIndex s + 1
       ∧ currentPoseIndex s' = currentPoseIndex s
       ∧ ∃ newLayer,
           last (outfitHistory s') = Some newLayer
           ∧ heap_get (heap s') (poseImages newLayer)
             = [(poseKey (currentPoseIndex s), image)]).
Proof.
  split; [| split; [| split]].
  - intros itemFile itemInfo r s Hidle Hshown Hc.
    unfold handleItemSelect, handleItemSelect_begin.
    rewrite Hshown, Hidle, Hc. split; reflexivity.
  - intros s Hpos. unfold handleRemoveLastGarment.
    destruct (Z.ltb_spec 0 (currentOutfitIndex s)); [| lia].
    split; reflexivity.
  - intros outfit s. repeat split.
  - intros itemFile itemInfo image s s1 c Hb.
    unfold handleItemSelect. rewrite Hb.
    destruct (handleItemSelect_begin_request _ _ _ _ _ Hb)
      as (_ & _ & _ & -> & _ & Hp & _).
    destruct (handleItemSelect_resolved c image
                (setLoadingMessage ("Adding " +:+ name itemInfo +:+ "...")
                   (setIsLoading true (setError None s))))
      as (Hh & Hi & Hm & Hpose & _).
    cbv zeta. split; [exact Hi |]. split; [exact Hpose |].
    eexists. split; [rewrite Hh; apply last_snoc |].
    rewrite Hm, Hp. unfold heap_get. simpl.
    by rewrite list_lookup_middle.
Qed.

Lemma pose_reset_on_layer_change_witness :
  currentPoseIndex
    (handleItemSelect "tee-file" geminiTee (Rejected "never asked")
       sessionUndone) = 0
  ∧ currentPoseIndex (handleRemoveLastGarment sessionTee) = 0
  ∧ currentPoseIndex
      (handleItemSelect "tee-file" geminiTee (Resolved "model@pose1+tee.png")
         sessionPosed) = 1.
Proof.
  destruct pose_reset_on_layer_change as (Hhit & Hremove & _ & Happend).
  split; [| split].
  - apply (Hhit "tee-file" geminiTee (Rejected "never asked") sessionUndone);
      by vm_compute.
  - apply (Hremove sessionTee). by vm_compute.
  - assert (E : handleItemSelect_begin "tee-file" geminiTee sessionPosed
      = ((handleItemSelect_begin "tee-file" geminiTee sessionPosed).1,
         Some {| isc_request :=
                   generateVirtualTryOnImage "model@pose1.png" "tee-file";
                 isc_itemInfo := geminiTee; isc_currentPoseIndex := 1;
                 isc_currentOutfitIndex := 0 |}))
      by (vm_compute; reflexivity).
    destruct (Happend "tee-file" geminiTee "model@pose1+tee.png"
                sessionPosed _ _ E) as (_ & Hp & _).
    rewrite Hp. by vm_compute.
Defined.

(** ** Recoloring a layer *)

Lemma handleRecolorGarment_begin_request colorName s s1 c :
  handleRecolorGarment_begin colorName s = (s1, Some c) →
  ∃ k layer it,
    selectedLayerIndexForRecolor s = Some k
    ∧ truthy (displayImageUrl s) = true
    ∧ js_index (outfitHistory s) k = Some layer
    ∧ item layer = Some it
    ∧ s1 = setLoadingMessage ("Recoloring to " +:+ colorName +:+ "...")
             (setIsLoading true (setError None s))
    ∧ rc_selectedLayerIndexForRecolor c = k
    ∧ rc_currentPoseIndex c = currentPoseIndex s.
Proof.
  unfold handleRecolorGarment_begin.
  destruct (selectedLayerIndexForRecolor s) as [k |]; [| discriminate].
  destruct (truthy (displayImageUrl s)); simpl; [| discriminate].
  destruct (js_index (outfitHistory s) k) as [layer |] eqn:Hl;
    [| discriminate].
  destruct (item layer) as [it |] eqn:Hit; [| discriminate].
  intros [= <- <-]. exists k, layer, it. repeat split; done.
Qed.

Lemma recolorLayers_index k a h (j : Z) :
  js_index (recolorLayers k a h) j
  = (λ layer, if j =? k then {| item := item layer; poseImages := a |}
              else layer) <$> js_index h j.
Proof.
  unfold js_index, recolorLayers.
  destruct (Z.ltb_spec j 0); [reflexivity |].
  rewrite list_lookup_imap. by rewrite Z2Nat.id by lia.
Qed.

(** C8.  A recolor that reached the service and got an image: the layer
    at the selected index keeps its item and gets a pose-image object with
    exactly one entry, the result image under the instruction of the
    selected pose; the layers at the other indices are the same layers,
    and every pose-image object that existed is unchanged.  If the service
    rejects, history and pose-image objects are as before. *)
Theorem recolor_replaces_pose_images colorName image err s s1 c :
  handleRecolorGarment_begin colorName s = (s1, Some c) →
  ∃ k layer,
    selectedLayerIndexForRecolor s = Some k
    ∧ js_index (outfitHistory s) k = Some layer
    ∧ (let s2 := handleRecolorGarment colorName (Resolved image) s in
       ∃ layer',
         js_index (outfitHistory s2) k = Some layer'
         ∧ item layer' = item layer
         ∧ heap_get (heap s2) (poseImages layer')
           = [(poseKey (currentPoseIndex s), image)]
         ∧ length (outfitHistory s2) = length (outfitHistory s)
         ∧ (∀ j, j ≠ k →
              js_index (outfitHistory s2) j = js_index (outfitHistory s) j)
         ∧ (∀ a, (a < length (heap s))%nat →
              heap_get (heap s2) a = heap_get (heap s) a)
         ∧ currentOutfitIndex s2 = currentOutfitIndex s
         ∧ currentPoseIndex s2 = currentPoseIndex s)
    ∧ (let s3 := handleRecolorGarment colorName (Rejected err) s in
       outfitHistory s3 = outfitHistory s ∧ heap s3 = heap s).
Proof.
  intros Hb.
  destruct (handleRecolorGarment_begin_request _ _ _ _ Hb)
    as (k & layer & it & Hsel & _ & Hl & Hit & -> & Hk & Hp).
  exists k, layer. split; [exact Hsel |]. split; [exact Hl |].
  unfold handleRecolorGarment. rewrite Hb.
  unfold handleRecolorGarment_resolve. rewrite Hk, Hp. simpl.
  rewrite Hl. simpl. split; [| done].
  exists {| item := item layer; poseImages := length (heap s) |}.
  split.
  { rewrite recolorLayers_index, Hl. simpl. by rewrite Z.eqb_refl. }
  split; [reflexivity |].
  split.
  { unfold heap_get. simpl. by rewrite list_lookup_middle. }
  split; [apply length_imap |].
  split.
  { intros j Hj. rewrite recolorLayers_index.
    destruct (Z.eqb_spec j k); [done |].
    by destruct (js_index (outfitHistory s) j). }
  split; [intros a Ha; by apply heap_get_app |].
  split; reflexivity.
Qed.

Lemma recolor_replaces_pose_images_witness :
  js_index
    (outfitHistory
       (handleRecolorGarment "#2563eb" (Resolved "model+blue-tee.png")
          sessionPicker)) 1
  = Some {| item := Some geminiTee; poseImages := 2%nat |}
  ∧ heap_get
      (heap (handleRecolorGarment "#2563eb" (Resolved "model+blue-tee.png")
               sessionPicker)) 2%nat
    = [(poseKey 0, "model+blue-tee.png")]
  ∧ heap (handleRecolorGarment "#2563eb" (Rejected "overloaded")
            sessionPicker) = heap sessionPicker.
Proof.
  assert (E : handleRecolorGarment_begin "#2563eb" sessionPicker
    = ((handleRecolorGarment_begin "#2563eb" sessionPicker).1,
       Some {| rc_request :=
                 generateColorVariation "model+tee.png" "Gemini Tee"
                   "#2563eb";
               rc_selectedLayerIndexForRecolor := 1;
               rc_currentPoseIndex := 0 |}))
    by (vm_compute; reflexivity).
  destruct (recolor_replaces_pose_images "#2563eb" "model+blue-tee.png"
              "overloaded" sessionPicker _ _ E)
    as (k & layer & Hsel & Hl & _ & _ & Hrej).
  split; [by vm_compute |]. split; [by vm_compute | exact Hrej].
Defined.

(** ** The position invariant *)

Lemma sessionInvariant_position s : sessionInvariant s → positionInvariant s.
Proof. intros [[Hnil _] | Hpos] Hne; [done | exact Hpos]. Qed.

(** The invariant reads three things of a state: the length of the
    history, the active position and the model image. *)
Lemma sessionInvariant_frame s s' :
  length (outfitHistory s') = length (outfitHistory s) →
  currentOutfitIndex s' = currentOutfitIndex s →
  modelImageUrl s' = modelImageUrl s →
  sessionInvariant s → sessionInvariant s'.
Proof.
  intros Hlen Hidx Hmodel [[Hnil Hor] | Hpos].
  - left. split.
    + apply length_zero_iff_nil. by rewrite Hlen, Hnil.
    + by rewrite Hmodel, Hidx.
  - right. rewrite Hlen, Hidx. exact Hpos.
Qed.

Lemma mount_sessionInvariant stored : sessionInvariant (mount stored).
Proof.
  left. unfold mount. destruct stored as [os |]; [| by split; [| left]].
  destruct (parseOutfits os []) as [saved h]. by split; [| left].
Qed.

Lemma handleModelFinalized_sessionInvariant url s :
  sessionInvariant (handleModelFinalized url s).
Proof. right. simpl. lia. Qed.

Lemma handleStartOver_sessionInvariant s :
  sessionInvariant (handleStartOver s).
Proof. left. by split; [| left]. Qed.

Lemma handleItemSelect_sessionInvariant itemFile itemInfo r s :
  sessionInvariant s →
  sessionInvariant (handleItemSelect itemFile itemInfo r s).
Proof.
  intros Hinv. unfold handleItemSelect.
  destruct (handleItemSelect_begin itemFile itemInfo s) as [s1 [c |]] eqn:Hb.
  - destruct (handleItemSelect_begin_request _ _ _ _ _ Hb)
      as (Hshown & _ & _ & -> & _ & _ & Ho).
    destruct r as [image | err].
    + destruct (handleItemSelect_resolved c image
                  (setLoadingMessage ("Adding " +:+ name itemInfo +:+ "...")
                     (setIsLoading true (setError None s))))
        as (Hh & Hi & _).
      right. rewrite Hh, Hi, Ho, length_app. simpl.
      destruct Hinv as [[Hnil [Hmodel | Hminus]] | Hpos].
      * unfold displayImageUrl in Hshown. rewrite Hnil in Hshown.
        simpl in Hshown. congruence.
      * rewrite Hnil, Hminus. simpl. lia.
      * rewrite js_slice0_nonneg, length_take by lia. lia.
    + eapply sessionInvariant_frame; [| | | exact Hinv];
        unfold handleItemSelect_resolve; reflexivity.
  - unfold handleItemSelect_begin in Hb.
    destruct (negb (truthy (displayImageUrl s)) || isLoading s);
      [by injection Hb as <- |].
    destruct (isCachedNext s itemInfo) eqn:Hc; [| discriminate].
    injection Hb as <-. right. simpl.
    unfold isCachedNext in Hc.
    destruct (js_index (outfitHistory s) (currentOutfitIndex s + 1))
      as [l |] eqn:E; [| discriminate].
    by apply js_index_Some in E.
Qed.

Lemma handleItemClick_sessionInvariant it file r s :
  sessionInvariant s → sessionInvariant (run (ItemClick it file r) s).
Proof.
  intros Hinv. simpl. rewrite handleItemClick_back_to_back.
  destruct (isLoading s || bool_decide (id it ∈ activeItemIds s));
    [exact Hinv |].
  destruct file as [f |].
  - apply (handleItemSelect_sessionInvariant f it r (setPanelError None s)).
    by eapply sessionInvariant_frame; [| | | exact Hinv].
  - by eapply sessionInvariant_frame; [| | | exact Hinv].
Qed.

Lemma handleRemoveLastGarment_sessionInvariant s :
  sessionInvariant s → sessionInvariant (handleRemoveLastGarment s).
Proof.
  intros Hinv. unfold handleRemoveLastGarment.
  destruct (Z.ltb_spec 0 (currentOutfitIndex s)); [| exact Hinv].
  destruct Hinv as [[Hnil [Hmodel | Hminus]] | Hpos].
  - left. by split; [| left].
  - lia.
  - right. simpl. lia.
Qed.

Lemma handlePoseSelect_sessionInvariant newIndex r s :
  sessionInvariant s → sessionInvariant (handlePoseSelect newIndex r s).
Proof.
  intros Hinv. eapply sessionInvariant_frame; [| | | exact Hinv];
    unfold handlePoseSelect, handlePoseSelect_begin;
    destruct (isLoading s || (length (outfitHistory s) =? 0)%nat
              || (newIndex =? currentPoseIndex s)); try reflexivity;
    destruct (js_index (outfitHistory s) (currentOutfitIndex s))
      as [currentLayer |] eqn:Hl; try reflexivity;
    destruct (truthy (pm_get (heap_get (heap s) (poseImages currentLayer))
                        (poseKey newIndex))); try reflexivity;
    destruct (negb (truthy (head (pm_values
                (heap_get (heap s) (poseImages currentLayer))))));
    try reflexivity;
    unfold handlePoseSelect_resolve; destruct r; simpl;
    rewrite ?Hl; reflexivity.
Qed.

(** Neither half of [handleRecolorGarment] changes the length of the
    history, the active position or the model image. *)
Lemma handleRecolorGarment_begin_frame colorName s :
  let s1 := (handleRecolorGarment_begin colorName s).1 in
  outfitHistory s1 = outfitHistory s
  ∧ currentOutfitIndex s1 = currentOutfitIndex s
  ∧ modelImageUrl s1 = modelImageUrl s.
Proof.
  unfold handleRecolorGarment_begin.
  destruct (selectedLayerIndexForRecolor s) as [k |]; [| done].
  destruct (negb (truthy (displayImageUrl s))); [done |].
  destruct (js_index (outfitHistory s) k) as [layer |]; [| done].
  by destruct (item layer).
Qed.

Lemma handleRecolorGarment_resolve_frame c r s :
  let s2 := handleRecolorGarment_resolve c r s in
  length (outfitHistory s2) = length (outfitHistory s)
  ∧ currentOutfitIndex s2 = currentOutfitIndex s
  ∧ modelImageUrl s2 = modelImageUrl s.
Proof.
  unfold handleRecolorGarment_resolve. destruct r as [image | err]; [| done].
  destruct (js_index (outfitHistory s) (rc_selectedLayerIndexForRecolor c));
    [| done].
  simpl. split; [apply length_imap | done].
Qed.

Lemma handleRecolorGarment_sessionInvariant colorName r s :
  sessionInvariant s → sessionInvariant (handleRecolorGarment colorName r s).
Proof.
  intros Hinv. unfold handleRecolorGarment.
  destruct (handleRecolorGarment_begin_frame colorName s) as (Hh & Hi & Hm).
  destruct (handleRecolorGarment_begin colorName s) as [s1 [c |]];
    simpl in Hh, Hi, Hm.
  - destruct (handleRecolorGarment_resolve_frame c r s1) as (Hh' & Hi' & Hm').
    apply (sessionInvariant_frame s); [| | | exact Hinv]; congruence.
  - apply (sessionInvariant_frame s); [| | | exact Hinv]; congruence.
Qed.

Lemma handleConfirmRecolor_sessionInvariant selectedColor r s :
  sessionInvariant s → sessionInvariant (run (ConfirmRecolor selectedColor r) s).
Proof.
  intros Hinv. simpl. unfold handleConfirmRecolor_begin.
  destruct (colorPickerRendered s); [| exact Hinv].
  destruct (handleRecolorGarment_begin_frame selectedColor s)
    as (Hh & Hi & Hm).
  destruct (handleRecolorGarment_begin selectedColor s) as [s1 [c |]];
    simpl in Hh, Hi, Hm.
  - destruct (handleRecolorGarment_resolve_frame c r
                (setIsColorPickerOpen false s1)) as (Hh' & Hi' & Hm').
    apply (sessionInvariant_frame s); [| | | exact Hinv].
    + rewrite Hh'. simpl. by rewrite Hh.
    + rewrite Hi'. exact Hi.
    + rewrite Hm'. exact Hm.
  - apply (sessionInvariant_frame s); [| | | exact Hinv]; simpl; congruence.
Qed.

Lemma handleSaveOutfit_sessionInvariant name now s :
  sessionInvariant s → sessionInvariant (handleSaveOutfit name now s).
Proof.
  intros Hinv. eapply sessionInvariant_frame; [| | | exact Hinv];
    unfold handleSaveOutfit;
    destruct ((length (outfitHistory s) <=? 1)%nat
              || negb (truthy (displayImageUrl s))
              || negb (truthy (modelImageUrl s))); try reflexivity;
    destruct (truthy name); reflexivity.
Qed.

Lemma handleLoadOutfit_sessionInvariant outfit confirmed s :
  sessionInvariant s →
  sessionInvariant (handleLoadOutfit outfit confirmed s).
Proof.
  intros Hinv. unfold handleLoadOutfit.
  destruct confirmed; [| exact Hinv].
  destruct (layers outfit) as [| l ls].
  - left. by split; [| right].
  - right. simpl. lia.
Qed.

Lemma handleDeleteOutfit_sessionInvariant outfitId confirmed s :
  sessionInvariant s →
  sessionInvariant (handleDeleteOutfit outfitId confirmed s).
Proof.
  intros Hinv. unfold handleDeleteOutfit.
  destruct confirmed; [| exact Hinv].
  by eapply sessionInvariant_frame; [| | | exact Hinv].
Qed.

Create HintDb session_inv discriminated.

#[local] Hint Resolve handleModelFinalized_sessionInvariant
  handleStartOver_sessionInvariant handleItemSelect_sessionInvariant
  handleItemClick_sessionInvariant handleRemoveLastGarment_sessionInvariant
  handlePoseSelect_sessionInvariant handleRecolorGarment_sessionInvariant
  handleConfirmRecolor_sessionInvariant handleSaveOutfit_sessionInvariant
  handleLoadOutfit_sessionInvariant handleDeleteOutfit_sessionInvariant
  : session_inv.

Lemma run_sessionInvariant a s :
  sessionInvariant s → sessionInvariant (run a s).
Proof.
  intros Hinv. destruct a; auto with session_inv; simpl;
    auto with session_inv.
  - unfold clickRecolorButton.
    destruct (stackButtonsRendered s index); [| exact Hinv].
    by apply (sessionInvariant_frame s).
  - unfold clickRemoveButton.
    destruct (stackButtonsRendered s index); auto with session_inv.
  - unfold clickSaveButton.
    destruct ((length (outfitHistory s) <=? 1)%nat || isLoading s);
      auto with session_inv.
  - unfold clickLoadButton.
    destruct (isLoading s); [exact Hinv |].
    destruct (savedOutfits s !! k); auto with session_inv.
Qed.

Lemma runAll_sessionInvariant acts : ∀ s,
  sessionInvariant s → sessionInvariant (runAll acts s).
Proof.
  induction acts as [| a rest IH]; intros s Hinv; [exact Hinv |].
  apply (IH (run a s)). by apply run_sessionInvariant.
Qed.

(** When no two actions overlap: whatever archive the session starts from
    and whatever actions are run, each to its end before the next starts
    (model chosen, start over, item added by the handler or by a wardrobe
    click, last item removed, pose changed, recolor, save, load, delete,
    and the buttons that reach these; with any arguments and any answer
    of the service), the state reached has, when its history is not
    empty, an active position from 0 to the last index of the history. *)
Theorem position_invariant_holds stored acts :
  positionInvariant (runAll acts (mount stored)).
Proof.
  apply sessionInvariant_position, runAll_sessionInvariant,
    mount_sessionInvariant.
Qed.

Lemma position_invariant_holds_witness :
  let s :=
    runAll [ModelFinalized "model.png";
            ItemSelect "tee-file" geminiTee (Resolved "model+tee.png");
            ItemSelect "hat-file" sunHat (Resolved "model+tee+hat.png");
            RemoveLastGarment; RemoveLastGarment;
            ItemSelect "sweat-file" geminiSweat (Resolved "model+sweat.png")]
      (mount None) in
  outfitHistory s ≠ []
  ∧ 0 ≤ currentOutfitIndex s < Z.of_nat (length (outfitHistory s))
  ∧ length (outfitHistory s) = 2%nat.
Proof.
  intros s.
  assert (Hne : outfitHistory s ≠ []) by (by vm_compute).
  split; [exact Hne |]. split; [| by vm_compute].
  exact (position_invariant_holds None _ Hne).
Defined.

(** C9, the code at the failing input: the tee and then the sweat are
    clicked in the wardrobe before the file of the tee is ready.  Both
    clicks pass the panel guard, and each later calls the
    [handleItemSelect] of its own render, where nothing was in flight and
    the active position was 0: the second add is accepted although the
    first is in flight.  When both answers are in, the second has cut the
    history after the position it captured and put its layer there, and
    the position was advanced twice: the history has two layers and the
    active position is 2, outside of it; the canvas falls back to the
    model image. *)
Theorem overlapping_wardrobe_clicks_break_position :
  let s1 := (handleItemClick_begin geminiTee sessionBase).1 in
  let s2 := (handleItemClick_begin geminiSweat s1).1 in
  let s3 := (handleItemClick_resume clickTee (Some "tee-file") s2).1 in
  let s4 := (handleItemClick_resume clickSweat (Some "sweat-file") s3).1 in
  positionInvariant sessionBase
  ∧ (handleItemClick_begin geminiTee sessionBase).2 = Some clickTee
  ∧ (handleItemClick_begin geminiSweat s1).2 = Some clickSweat
  ∧ (handleItemClick_resume clickTee (Some "tee-file") s2).2
    = Some addTeeFromBase
  ∧ isLoading s3 = true
  ∧ (handleItemClick_resume clickSweat (Some "sweat-file") s3).2
    = Some addSweatFromBase
  ∧ sessionTwoClicks
    = handleItemSelect_resolve addSweatFromBase (Resolved "model+sweat.png")
        (handleItemSelect_resolve addTeeFromBase (Resolved "model+tee.png")
           s4)
  ∧ outfitHistory sessionTwoClicks
    = [ {| item := None; poseImages := 0%nat |};
        {| item := Some geminiSweat; poseImages := 2%nat |} ]
  ∧ currentOutfitIndex sessionTwoClicks = 2
  ∧ ¬ positionInvariant sessionTwoClicks
  ∧ displayImageUrl sessionTwoClicks = Some "model.png".
Proof.
  cbv zeta. split.
  { intros _. by vm_compute. }
  split; [reflexivity |]. split; [reflexivity |].
  split; [by vm_compute |]. split; [by vm_compute |].
  split; [by vm_compute |]. split; [reflexivity |].
  split; [by vm_compute |]. split; [by vm_compute |].
  split; [| by vm_compute].
  intros Hinv.
  assert (Hne : outfitHistory sessionTwoClicks ≠ []) by (by vm_compute).
  destruct (Hinv Hne) as [_ Hlt]. vm_compute in Hlt. discriminate Hlt.
Qed.

(** ** The wardrobe panel *)

(** The ids the panel treats as worn: the non-empty item ids of the
    layers from the base through the active position. *)
Lemma elem_of_activeItemIds x s :
  x ∈ activeItemIds s
  ↔ x ≠ ""
    ∧ ∃ layer it,
        layer ∈ activeOutfitLayers s ∧ item layer = Some it ∧ id it = x.
Proof.
  unfold activeItemIds. rewrite list_elem_of_omap. split.
  - intros (layer & Hin & Hf). destruct (item layer) as [it |] eqn:Hit;
      simpl in Hf; [| discriminate].
    destruct (String.eqb_spec (id it) ""); simpl in Hf; [discriminate |].
    injection Hf as <-. split; [done |]. by exists layer, it.
  - intros (Hne & layer & it & Hin & Hit & <-). exists layer.
    split; [exact Hin |]. rewrite Hit. simpl.
    by destruct (String.eqb_spec (id it) "").
Qed.

(** C10.  A click on a wardrobe item whose id is among the ids of the
    active layers returns at the panel's guard: no request, and the state
    is the same state.  This holds whether or not the layer after the
    active position holds that item. *)
Theorem worn_item_click_ignored it file r s :
  id it ∈ activeItemIds s →
  handleItemClick it file s = (s, None)
  ∧ run (ItemClick it file r) s = s.
Proof.
  intros Hin.
  assert (Hc : handleItemClick it file s = (s, None)).
  { rewrite handleItemClick_back_to_back.
    rewrite (bool_decide_eq_true_2 _ Hin).
    by rewrite orb_true_r. }
  split; [exact Hc |]. simpl. by rewrite Hc.
Qed.

Lemma worn_item_click_ignored_witness :
  id geminiTee ∈ activeItemIds sessionTee
  ∧ run (ItemClick geminiTee (Some "tee-file") (Resolved "unused.png"))
      sessionTee = sessionTee.
Proof.
  assert (Hin : id geminiTee ∈ activeItemIds sessionTee).
  { vm_compute. apply list_elem_of_here. }
  split; [exact Hin |].
  exact (proj2 (worn_item_click_ignored geminiTee (Some "tee-file")
                  (Resolved "unused.png") sessionTee Hin)).
Defined.

(** * Further properties of the handlers *)

(** ** The archive in [localStorage] *)

Lemma parseLayers_cons l rest h :
  parseLayers (l :: rest) h
  = ({| item := st_item l; poseImages := length h |}
       :: (parseLayers rest (h ++ [st_poseImages l])).1,
     (parseLayers rest (h ++ [st_poseImages l])).2).
Proof. simpl. by destruct (parseLayers rest (h ++ [st_poseImages l])). Qed.

Lemma parseOutfits_cons o rest h :
  parseOutfits (o :: rest) h
  = ({| so_id := st_id o; so_name := st_name o;
        previewImageUrl := st_previewImageUrl o;
        so_modelImageUrl := st_modelImageUrl o;
        layers := (parseLayers (st_layers o) h).1 |}
       :: (parseOutfits rest (parseLayers (st_layers o) h).2).1,
     (parseOutfits rest (parseLayers (st_layers o) h).2).2).
Proof.
  simpl. destruct (parseLayers (st_layers o) h) as [ls h1]. simpl.
  by destruct (parseOutfits rest h1).
Qed.

Lemma parseLayers_heap ls : ∀ h,
  (parseLayers ls h).2 = h ++ (st_poseImages <$> ls).
Proof.
  induction ls as [| l rest IH]; intros h.
  - simpl. by rewrite app_nil_r.
  - rewrite parseLayers_cons, fmap_cons. cbn [snd].
    by rewrite IH, <- app_assoc.
Qed.

Lemma parseLayers_addresses ls : ∀ h,
  poseImages <$> (parseLayers ls h).1 = seq (length h) (length ls).
Proof.
  induction ls as [| l rest IH]; intros h; [reflexivity |].
  rewrite parseLayers_cons. cbn [fst]. rewrite fmap_cons, IH, length_app.
  cbn [poseImages length seq].
  by replace (length h + 1)%nat with (S (length h)) by lia.
Qed.

(** Writing the parsed layers out again, from the store the parse left or
    from any later store, gives the stored layers. *)
Lemma parseLayers_store ls : ∀ h more,
  storeLayer ((parseLayers ls h).2 ++ more) <$> (parseLayers ls h).1 = ls.
Proof.
  induction ls as [| l rest IH]; intros h more; [reflexivity |].
  rewrite parseLayers_cons. cbn [fst snd]. rewrite fmap_cons, IH. f_equal.
  unfold storeLayer, heap_get. cbn [item poseImages].
  rewrite parseLayers_heap, <- !app_assoc. cbn [app].
  rewrite list_lookup_middle by done. by destruct l.
Qed.

Lemma parseOutfits_heap os : ∀ h,
  ∃ ext, (parseOutfits os h).2 = h ++ ext.
Proof.
  induction os as [| o rest IH]; intros h.
  - exists []. simpl. by rewrite app_nil_r.
  - rewrite parseOutfits_cons. cbn [snd].
    destruct (IH (parseLayers (st_layers o) h).2) as [ext He].
    exists ((st_poseImages <$> st_layers o) ++ ext).
    by rewrite He, parseLayers_heap, <- app_assoc.
Qed.

Lemma parseOutfits_store os : ∀ h more,
  storeOutfit ((parseOutfits os h).2 ++ more) <$> (parseOutfits os h).1 = os.
Proof.
  induction os as [| o rest IH]; intros h more; [reflexivity |].
  rewrite parseOutfits_cons. cbn [fst snd]. rewrite fmap_cons, IH. f_equal.
  destruct (parseOutfits_heap rest (parseLayers (st_layers o) h).2)
    as [ext He].
  unfold storeOutfit. cbn [so_id so_name previewImageUrl so_modelImageUrl
    layers].
  rewrite He, <- app_assoc, parseLayers_store. by destruct o.
Qed.

(** X1.  What a session reads from [localStorage] when it mounts is, once
    written out again, the archive that was stored: no outfit, layer,
    item or pose image is lost or changed by the reload. *)
Theorem archive_reload_round_trip os :
  let m := mount (Some os) in
  storeOutfit (heap m) <$> savedOutfits m = os
  ∧ localStorage m = Some os
  ∧ length (savedOutfits m) = length os.
Proof.
  pose proof (parseOutfits_store os [] []) as Hs.
  unfold mount. destruct (parseOutfits os []) as [saved h] eqn:E.
  simpl in *. rewrite app_nil_r in Hs.
  split; [exact Hs |]. split; [reflexivity |].
  apply (f_equal length) in Hs. by rewrite length_fmap in Hs.
Qed.

Lemma parseOutfits_addresses os : ∀ h,
  ∃ n, poseImages <$> mjoin (layers <$> (parseOutfits os h).1)
       = seq (length h) n
       ∧ length (parseOutfits os h).2 = (length h + n)%nat.
Proof.
  induction os as [| o rest IH]; intros h.
  - exists 0%nat. simpl. split; [reflexivity | lia].
  - rewrite parseOutfits_cons. cbn [fst snd].
    destruct (IH (parseLayers (st_layers o) h).2) as (n & Hn & Hlen).
    exists (length (st_layers o) + n)%nat.
    rewrite fmap_cons.
    change (mjoin (?x :: ?l)) with (x ++ mjoin l). cbn [layers].
    rewrite fmap_app, parseLayers_addresses, Hn, Hlen.
    rewrite parseLayers_heap, length_app, length_fmap.
    split; [| lia]. by rewrite seq_app.
Qed.

(** X2.  After a reload every layer of every saved outfit has a
    pose-image object of its own, and that object is in the store. *)
Theorem reloaded_layers_share_nothing os :
  let m := mount (Some os) in
  NoDup (poseImages <$> mjoin (layers <$> savedOutfits m))
  ∧ Forall (λ o, layersAllocated (heap m) (layers o)) (savedOutfits m).
Proof.
  destruct (parseOutfits_addresses os []) as (n & Hn & Hlen).
  unfold mount. destruct (parseOutfits os []) as [saved h]. simpl in *.
  split; [rewrite Hn; apply NoDup_seq |].
  apply Forall_forall. intros o Ho. apply Forall_forall. intros l Hl.
  assert (Hin : poseImages l ∈ poseImages <$> mjoin (layers <$> saved)).
  { apply list_elem_of_fmap. exists l. split; [reflexivity |].
    apply list_elem_of_join. exists (layers o). split; [exact Hl |].
    apply list_elem_of_fmap. by exists o. }
  rewrite Hn in Hin. apply elem_of_seq in Hin. lia.
Qed.

Lemma mount_store os :
  storeOutfit (heap (mount (Some os))) <$> savedOutfits (mount (Some os)) = os.
Proof.
  pose proof (parseOutfits_store os [] []) as Hs.
  unfold mount. destruct (parseOutfits os []) as [saved h].
  simpl in *. by rewrite app_nil_r in Hs.
Qed.

(** The guard of [handleSaveOutfit], passed. *)
Lemma handleSaveOutfit_accepted name now s :
  (1 < length (outfitHistory s))%nat →
  truthy (displayImageUrl s) = true →
  truthy (modelImageUrl s) = true →
  truthy name = true →
  handleSaveOutfit name now s
  = setLocalStorage
      (storeOutfit (heap s)
         <$> (savedOutfits s
              ++ [ {| so_id := now; so_name := default "" name;
                      previewImageUrl := default "" (displayImageUrl s);
                      so_modelImageUrl := default "" (modelImageUrl s);
                      layers := outfitHistory s |} ]))
      (setSavedOutfits
         (savedOutfits s
          ++ [ {| so_id := now; so_name := default "" name;
                  previewImageUrl := default "" (displayImageUrl s);
                  so_modelImageUrl := default "" (modelImageUrl s);
                  layers := outfitHistory s |} ]) s).
Proof.
  intros Hlen Hd Hm Hn. unfold handleSaveOutfit.
  destruct (Nat.leb_spec (length (outfitHistory s)) 1); [lia |].
  by rewrite Hd, Hm, Hn.
Qed.


(** X3.  A save that passes its guard adds one outfit to the archive, and
    a session mounted from what it wrote to [localStorage] holds, by
    value, the archive of the saving session at that moment. *)
Theorem saved_archive_persists name now s :
  (1 < length (outfitHistory s))%nat →
  truthy (displayImageUrl s) = true →
  truthy (modelImageUrl s) = true →
  truthy name = true →
  let s' := handleSaveOutfit name now s in
  let m := mount (localStorage s') in
  length (savedOutfits s') = S (length (savedOutfits s))
  ∧ storeOutfit (heap m) <$> savedOutfits m
    = storeOutfit (heap s') <$> savedOutfits s'.
Proof.
  intros Hlen Hd Hm Hn. cbv zeta.
  rewrite (handleSaveOutfit_accepted _ _ _ Hlen Hd Hm Hn).
  cbn [savedOutfits localStorage heap setLocalStorage setSavedOutfits].
  split; [rewrite length_app; simpl; lia | apply mount_store].
Qed.

Lemma saved_archive_persists_witness :
  let s' := handleSaveOutfit (Some "look") "1700000000000" sessionTee in
  length (savedOutfits s') = 1%nat
  ∧ storeOutfit (heap (mount (localStorage s')))
      <$> savedOutfits (mount (localStorage s'))
    = storeOutfit (heap s') <$> savedOutfits s'.
Proof.
  exact (saved_archive_persists (Some "look") "1700000000000" sessionTee
           ltac:(by vm_compute) ltac:(by vm_compute) ltac:(by vm_compute)
           ltac:(by vm_compute)).
Defined.

(** X4.  A save is rejected, and nothing at all is written, when the
    history has no layer besides the base, when no image is displayed,
    when there is no model image, or when the name prompt was cancelled
    or left empty. *)
Theorem save_rejected_without_item_or_name name now s :
  (length (outfitHistory s) ≤ 1)%nat
  ∨ truthy (displayImageUrl s) = false
  ∨ truthy (modelImageUrl s) = false
  ∨ truthy name = false →
  handleSaveOutfit name now s = s ∧ clickSaveButton name now s = s.
Proof.
  intros Hrej.
  assert (Hh : handleSaveOutfit name now s = s).
  { unfold handleSaveOutfit.
    destruct Hrej as [Hlen | [Hd | [Hm | Hn]]].
    - by destruct (Nat.leb_spec (length (outfitHistory s)) 1); [| lia].
    - rewrite Hd. by rewrite orb_true_r.
    - rewrite Hm. by rewrite orb_true_r.
    - rewrite Hn. by destruct (_ || _ || _). }
  split; [exact Hh |]. unfold clickSaveButton. rewrite Hh.
  by destruct (_ || _).
Qed.

Lemma save_rejected_without_item_or_name_witness :
  (length (outfitHistory sessionBase) ≤ 1)%nat
  ∧ handleSaveOutfit (Some "bare") "1700000000000" sessionBase = sessionBase.
Proof.
  assert (H : (length (outfitHistory sessionBase) ≤ 1)%nat)
    by (vm_compute; lia).
  split; [exact H |].
  exact (proj1 (save_rejected_without_item_or_name (Some "bare")
                  "1700000000000" sessionBase (or_introl H))).
Defined.



(** X6.  A confirmed delete removes every saved outfit with the given id
    and no other, keeps the order of the rest, rewrites [localStorage]
    with what is left, and leaves the live session alone; a cancelled
    delete changes nothing. *)
Theorem delete_removes_by_id outfitId s :
  let s' := handleDeleteOutfit outfitId true s in
  (∀ o, o ∈ savedOutfits s' ↔ o ∈ savedOutfits s ∧ so_id o ≠ outfitId)
  ∧ savedOutfits s' `sublist_of` savedOutfits s
  ∧ localStorage s' = Some (storeOutfit (heap s') <$> savedOutfits s')
  ∧ outfitHistory s' = outfitHistory s
  ∧ currentOutfitIndex s' = currentOutfitIndex s
  ∧ heap s' = heap s
  ∧ handleDeleteOutfit outfitId false s = s.
Proof.
  cbv zeta. unfold handleDeleteOutfit.
  cbn [savedOutfits localStorage heap outfitHistory currentOutfitIndex
       setLocalStorage setSavedOutfits].
  split; [| split; [apply sublist_filter | done]].
  intros o. rewrite list_elem_of_filter. tauto.
Qed.

(** ** Adding an item: failure, routing, registration *)

(** X7.  When the service rejects an add, the history, the active
    position, the pose position, the pose images, both collections, the
    archive and the displayed image are as before the request; the Busy
    flag and the loading message are cleared and the error is the
    friendly message for the item's type. *)
Theorem add_failure_leaves_outfit itemFile itemInfo err s s1 c :
  handleItemSelect_begin itemFile itemInfo s = (s1, Some c) →
  let s' := handleItemSelect itemFile itemInfo (Rejected err) s in
  outfitHistory s' = outfitHistory s
  ∧ currentOutfitIndex s' = currentOutfitIndex s
  ∧ currentPoseIndex s' = currentPoseIndex s
  ∧ heap s' = heap s
  ∧ wardrobe s' = wardrobe s
  ∧ accessories s' = accessories s
  ∧ savedOutfits s' = savedOutfits s
  ∧ displayImageUrl s' = displayImageUrl s
  ∧ isLoading s' = false
  ∧ loadingMessage s' = ""
  ∧ error s'
    = Some (getFriendlyErrorMessage err
              ("Failed to apply " +:+ typeName (type itemInfo))).
Proof.
  intros Hb. cbv zeta. unfold handleItemSelect. rewrite Hb.
  destruct (handleItemSelect_begin_request _ _ _ _ _ Hb)
    as (_ & _ & _ & -> & Hi & _).
  unfold handleItemSelect_resolve. rewrite Hi. repeat split.
Qed.

Lemma add_failure_leaves_outfit_witness :
  outfitHistory
    (handleItemSelect "hat-file" sunHat (Rejected "quota") sessionTee)
  = outfitHistory sessionTee
  ∧ error (handleItemSelect "hat-file" sunHat (Rejected "quota") sessionTee)
    = Some (getFriendlyErrorMessage "quota" "Failed to apply accessory").
Proof.
  assert (E : handleItemSelect_begin "hat-file" sunHat sessionTee
    = ((handleItemSelect_begin "hat-file" sunHat sessionTee).1,
       Some {| isc_request :=
                 generateAccessoryTryOnImage "model+tee.png" "hat-file";
               isc_itemInfo := sunHat; isc_currentPoseIndex := 0;
               isc_currentOutfitIndex := 1 |}))
    by (vm_compute; reflexivity).
  destruct (add_failure_leaves_outfit "hat-file" sunHat "quota" sessionTee
              _ _ E) as (Hh & _ & _ & _ & _ & _ & _ & _ & _ & _ & He).
  split; [exact Hh | exact He].
Defined.

Lemma addIfAbsent_spec itemInfo prev :
  ((∃ it, it ∈ prev ∧ id it = id itemInfo) ∧ addIfAbsent itemInfo prev = prev)
  ∨ ((∀ it, it ∈ prev → id it ≠ id itemInfo)
     ∧ addIfAbsent itemInfo prev = prev ++ [itemInfo]).
Proof.
  unfold addIfAbsent.
  destruct (existsb (λ it, String.eqb (id it) (id itemInfo)) prev) eqn:E.
  - left. split; [| reflexivity].
    apply existsb_exists in E as (it & Hin & Heq).
    exists it. split; [by apply list_elem_of_In |].
    by apply String.eqb_eq.
  - right. split; [| reflexivity]. intros it Hin Heq.
    assert (existsb (λ it, String.eqb (id it) (id itemInfo)) prev = true);
      [| congruence].
    apply existsb_exists. exists it.
    split; [by apply list_elem_of_In | by apply String.eqb_eq].
Qed.

(** X8.  An add that calls the service sends the displayed image and the
    item file to the operation of the item's type; when it resolves, the
    item's id is in the collection of that type, which is unchanged if
    it already held an item with that id and has the item appended
    otherwise, and the other collection is unchanged. *)
Theorem add_routes_and_registers_by_type itemFile itemInfo image s s1 c :
  handleItemSelect_begin itemFile itemInfo s = (s1, Some c) →
  let s' := handleItemSelect itemFile itemInfo (Resolved image) s in
  (∃ base,
     displayImageUrl s = Some base
     ∧ isc_request c
       = match type itemInfo with
         | garment => generateVirtualTryOnImage base itemFile
         | accessory => generateAccessoryTryOnImage base itemFile
         end)
  ∧ id itemInfo ∈ id <$> listOf (type itemInfo) s'
  ∧ (((∃ it, it ∈ listOf (type itemInfo) s ∧ id it = id itemInfo)
      ∧ listOf (type itemInfo) s' = listOf (type itemInfo) s)
     ∨ ((∀ it, it ∈ listOf (type itemInfo) s → id it ≠ id itemInfo)
        ∧ listOf (type itemInfo) s' = listOf (type itemInfo) s ++ [itemInfo]))
  ∧ otherListOf (type itemInfo) s' = otherListOf (type itemInfo) s.
Proof.
  intros Hb. cbv zeta.
  assert (Hreq : ∃ base,
     displayImageUrl s = Some base
     ∧ isc_request c
       = match type itemInfo with
         | garment => generateVirtualTryOnImage base itemFile
         | accessory => generateAccessoryTryOnImage base itemFile
         end).
  { unfold handleItemSelect_begin in Hb.
    destruct (displayImageUrl s) as [base |] eqn:Hd; [| discriminate].
    destruct (negb (truthy (Some base)) || isLoading s); [discriminate |].
    destruct (isCachedNext s itemInfo); [discriminate |].
    injection Hb as _ <-. exists base. split; [reflexivity |].
    by destruct (type itemInfo). }
  split; [exact Hreq |].
  unfold handleItemSelect. rewrite Hb.
  destruct (handleItemSelect_begin_request _ _ _ _ _ Hb)
    as (_ & _ & _ & -> & Hi & _).
  assert (Hl : listOf (type itemInfo)
                 (handleItemSelect_resolve c (Resolved image)
                    (setLoadingMessage ("Adding " +:+ name itemInfo +:+ "...")
                       (setIsLoading true (setError None s))))
               = addIfAbsent itemInfo (listOf (type itemInfo) s)).
  { unfold handleItemSelect_resolve. rewrite Hi.
    by destruct (type itemInfo). }
  rewrite Hl. split; [| split].
  - destruct (addIfAbsent_spec itemInfo (listOf (type itemInfo) s))
      as [[(it & Hin & Heq) ->] | [_ ->]].
    + apply list_elem_of_fmap. by exists it.
    + rewrite fmap_app. apply elem_of_app. right. by apply list_elem_of_here.
  - apply addIfAbsent_spec.
  - unfold handleItemSelect_resolve. rewrite Hi.
    by destruct (type itemInfo).
Qed.

Lemma add_routes_and_registers_by_type_witness :
  let custom :=
    {| id := "custom-1700000000001"; name := "scarf.png";
       url := "blob:scarf"; type := accessory |} in
  accessories
    (handleItemSelect "scarf-file" custom (Resolved "model+tee+scarf.png")
       sessionTee)
  = defaultAccessories ++ [custom]
  ∧ wardrobe
      (handleItemSelect "scarf-file" custom (Resolved "model+tee+scarf.png")
         sessionTee)
    = defaultWardrobe.
Proof.
  intros custom.
  assert (E : handleItemSelect_begin "scarf-file" custom sessionTee
    = ((handleItemSelect_begin "scarf-file" custom sessionTee).1,
       Some {| isc_request :=
                 generateAccessoryTryOnImage "model+tee.png" "scarf-file";
               isc_itemInfo := custom; isc_currentPoseIndex := 0;
               isc_currentOutfitIndex := 1 |}))
    by (vm_compute; reflexivity).
  destruct (add_routes_and_registers_by_type "scarf-file" custom
              "model+tee+scarf.png" sessionTee _ _ E)
    as (_ & _ & _ & Hother).
  split; [by vm_compute | exact Hother].
Defined.

(** ** Invariants over whole sessions *)

Ltac unfold_handlers :=
  unfold handleItemSelect, handleItemSelect_begin, handleItemSelect_resolve,
    handleItemClick, handleItemClick_begin, handleItemClick_resume,
    handleItemSelect_begin_from, handleFileChange,
    handlePoseSelect, handlePoseSelect_begin,
    handlePoseSelect_resolve, handleRecolorGarment,
    handleRecolorGarment_begin, handleRecolorGarment_resolve,
    handleConfirmRecolor_begin, handleSaveOutfit, handleLoadOutfit,
    handleDeleteOutfit, handleRemoveLastGarment, handleOpenColorPicker,
    handleModelFinalized, handleStartOver, clickRecolorButton,
    clickRemoveButton, clickSaveButton, clickLoadButton in *.

(** Every path through the handlers of an action, one goal per path. *)
Ltac handler_paths :=
  repeat (progress (unfold_handlers; repeat case_match; simplify_eq; simpl)).

Lemma run_idle a s :
  isLoading s = false ∧ loadingMessage s = "" →
  isLoading (run a s) = false ∧ loadingMessage (run a s) = "".
Proof.
  intros [Hl Hm]. destruct a; simpl; handler_paths; auto.
Qed.

(** X9.  Between actions the session is never Busy: after any sequence of
    actions, each carried to its end with any answer of the service, the
    Busy flag is off and the loading message is empty. *)
Theorem busy_flag_always_released stored acts :
  isLoading (runAll acts (mount stored)) = false
  ∧ loadingMessage (runAll acts (mount stored)) = "".
Proof.
  assert (H0 : isLoading (mount stored) = false
               ∧ loadingMessage (mount stored) = "").
  { unfold mount. destruct stored as [os |]; [| done].
    by destruct (parseOutfits os []). }
  revert H0. generalize (mount stored).
  induction acts as [| a rest IH]; intros s Hs; [exact Hs |].
  apply (IH (run a s)). by apply run_idle.
Qed.

Lemma addIfAbsent_idsNoDup itemInfo prev :
  idsNoDup prev → idsNoDup (addIfAbsent itemInfo prev).
Proof.
  unfold idsNoDup. intros Hnd.
  destruct (addIfAbsent_spec itemInfo prev) as [[_ ->] | [Hfresh ->]];
    [exact Hnd |].
  rewrite fmap_app. apply NoDup_app. split; [exact Hnd |].
  split; [| apply NoDup_singleton].
  intros x Hx Hx'. apply list_elem_of_singleton in Hx'. subst x.
  apply list_elem_of_fmap in Hx as (it & Heq & Hin).
  by apply (Hfresh it Hin).
Qed.

Lemma default_collections_idsNoDup :
  idsNoDup defaultWardrobe ∧ idsNoDup defaultAccessories.
Proof.
  split; apply (bool_decide_unpack _); by vm_compute.
Qed.

Lemma run_idsNoDup a s :
  idsNoDup (wardrobe s) ∧ idsNoDup (accessories s) →
  idsNoDup (wardrobe (run a s)) ∧ idsNoDup (accessories (run a s)).
Proof.
  intros [Hw Ha].
  pose proof default_collections_idsNoDup as [Hdw Hda].
  destruct a; simpl; handler_paths; auto using addIfAbsent_idsNoDup.
Qed.

(** X10.  The wardrobe and the accessories never hold two items with the
    same id, whatever items are added and however often: the defaults
    have distinct ids, an add registers an item only when its id is new,
    and start over puts the defaults back. *)
Theorem collections_never_repeat_an_id stored acts :
  idsNoDup (wardrobe (runAll acts (mount stored)))
  ∧ idsNoDup (accessories (runAll acts (mount stored))).
Proof.
  assert (H0 : idsNoDup (wardrobe (mount stored))
               ∧ idsNoDup (accessories (mount stored))).
  { unfold mount. destruct stored as [os |];
      [destruct (parseOutfits os []) |]; apply default_collections_idsNoDup. }
  revert H0. generalize (mount stored).
  induction acts as [| a rest IH]; intros s Hs; [exact Hs |].
  apply (IH (run a s)). by apply run_idsNoDup.
Qed.

(** ** Every layer has an image *)

#[local] Arguments js_slice0 : simpl never.
#[local] Arguments recolorLayers : simpl never.
#[local] Arguments pm_set : simpl never.
#[local] Arguments heap_get : simpl never.
#[local] Arguments layersAllocated : simpl never.

Section StoreInvariant.
Implicit Types (h : list PoseImages) (ls : list OutfitLayer)
  (os : list SavedOutfit).

Lemma pm_set_nonempty (pm : PoseImages) k v : pm_set pm k v ≠ [].
Proof.
  unfold pm_set. destruct pm as [| [k' v'] rest]; [done |].
  by destruct (String.eqb k' k).
Qed.

Lemma images_alloc h k v :
  Forall (λ pm : PoseImages, pm ≠ []) h →
  Forall (λ pm : PoseImages, pm ≠ []) (h ++ [[(k, v)]]).
Proof. intros H. apply Forall_app. split; [exact H |]. by constructor. Qed.

Lemma images_insert h a (pm : PoseImages) k v :
  Forall (λ pm : PoseImages, pm ≠ []) h →
  Forall (λ pm : PoseImages, pm ≠ []) (<[a := pm_set pm k v]> h).
Proof. intros H. apply Forall_insert; [exact H | apply pm_set_nonempty]. Qed.

Lemma allocated_app h ext ls :
  layersAllocated h ls → layersAllocated (h ++ ext) ls.
Proof.
  unfold layersAllocated. intros H. eapply Forall_impl; [exact H |].
  intros l Hl. simpl in *. rewrite length_app. lia.
Qed.

Lemma allocated_insert h a pm ls :
  layersAllocated h ls → layersAllocated (<[a := pm]> h) ls.
Proof. unfold layersAllocated. by rewrite length_insert. Qed.

Lemma allocated_nil h : layersAllocated h [].
Proof. constructor. Qed.

Lemma allocated_new h pm it :
  layersAllocated (h ++ [pm]) [ {| item := it; poseImages := length h |} ].
Proof.
  unfold layersAllocated. constructor; [| constructor].
  rewrite length_app. simpl. lia.
Qed.

Lemma allocated_append h pm it ls e :
  layersAllocated h ls →
  layersAllocated (h ++ [pm])
    (js_slice0 ls e ++ [ {| item := it; poseImages := length h |} ]).
Proof.
  intros H. apply Forall_app. split; [| apply allocated_new].
  apply allocated_app. unfold js_slice0. by apply Forall_take.
Qed.

Lemma allocated_recolor h pm k ls :
  layersAllocated h ls →
  layersAllocated (h ++ [pm]) (recolorLayers k (length h) ls).
Proof.
  unfold layersAllocated, recolorLayers. rewrite !Forall_lookup.
  intros H i l. rewrite list_lookup_imap.
  destruct (ls !! i) as [l0 |] eqn:E; [| discriminate].
  intros [= <-]. rewrite length_app. simpl.
  destruct (Z.of_nat i =? k); simpl; [lia |].
  specialize (H i l0 E). simpl in H. lia.
Qed.

Lemma archive_app h ext os :
  Forall (λ o, layersAllocated h (layers o)) os →
  Forall (λ o, layersAllocated (h ++ ext) (layers o)) os.
Proof.
  intros H. eapply Forall_impl; [exact H |]. intros o. apply allocated_app.
Qed.

Lemma archive_insert h a pm os :
  Forall (λ o, layersAllocated h (layers o)) os →
  Forall (λ o, layersAllocated (<[a := pm]> h) (layers o)) os.
Proof.
  intros H. eapply Forall_impl; [exact H |]. intros o.
  apply allocated_insert.
Qed.

Lemma archive_snoc h os o :
  Forall (λ o, layersAllocated h (layers o)) os →
  layersAllocated h (layers o) →
  Forall (λ o, layersAllocated h (layers o)) (os ++ [o]).
Proof. intros H Ho. apply Forall_app. split; [exact H | by constructor]. Qed.

Lemma archive_filter h (P : SavedOutfit → Prop) `{∀ o, Decision (P o)} os :
  Forall (λ o, layersAllocated h (layers o)) os →
  Forall (λ o, layersAllocated h (layers o)) (filter P os).
Proof.
  rewrite !Forall_forall. intros Hall o Ho.
  apply list_elem_of_filter in Ho as [_ Ho]. by apply Hall.
Qed.

Lemma archive_elem h os o :
  Forall (λ o, layersAllocated h (layers o)) os →
  o ∈ os → layersAllocated h (layers o).
Proof. rewrite Forall_forall. auto. Qed.

Lemma archive_lookup h os k o :
  Forall (λ o, layersAllocated h (layers o)) os →
  os !! k = Some o → layersAllocated h (layers o).
Proof. rewrite Forall_lookup. eauto. Qed.
End StoreInvariant.

Create HintDb store_inv discriminated.

#[local] Hint Resolve images_alloc images_insert allocated_app
  allocated_insert allocated_nil allocated_new allocated_append
  allocated_recolor archive_app archive_insert archive_snoc archive_filter
  archive_elem archive_lookup : store_inv.

Lemma run_storeInvariant a s :
  match a with
  | LoadOutfit outfit _ => outfit ∈ savedOutfits s
  | _ => True
  end →
  storeInvariant s → storeInvariant (run a s).
Proof.
  intros Hadm (Himg & Hhist & Harch). unfold storeInvariant.
  destruct a; simpl; handler_paths; split_and!; eauto with store_inv.
Qed.

Lemma parseOutfits_images os : ∀ h,
  Forall (λ pm : PoseImages, pm ≠ []) h →
  storedWithImages (Some os) →
  Forall (λ pm : PoseImages, pm ≠ []) (parseOutfits os h).2.
Proof.
  induction os as [| o rest IH]; intros h Hh Hos; [exact Hh |].
  rewrite parseOutfits_cons. cbn [snd].
  simpl in Hos. apply Forall_cons in Hos as [Ho Hrest].
  apply IH; [| exact Hrest].
  rewrite parseLayers_heap. apply Forall_app. split; [exact Hh |].
  by apply Forall_fmap.
Qed.

Lemma mount_storeInvariant stored :
  storedWithImages stored → storeInvariant (mount stored).
Proof.
  intros Hst. destruct stored as [os |]; [| by repeat split; constructor].
  pose proof (parseOutfits_images os [] ltac:(constructor) Hst) as Himg.
  destruct (parseOutfits_addresses os []) as (n & Hn & Hlen).
  unfold mount. destruct (parseOutfits os []) as [saved h].
  simpl in *. split; [exact Himg |]. split; [constructor |].
  apply Forall_forall. intros o Ho. unfold layersAllocated.
  apply Forall_forall. intros l Hl. cbv beta.
  assert (Hin : poseImages l ∈ poseImages <$> mjoin (layers <$> saved)).
  { apply list_elem_of_fmap. exists l. split; [reflexivity |].
    apply list_elem_of_join. exists (layers o). split; [exact Hl |].
    apply list_elem_of_fmap. by exists o. }
  rewrite Hn in Hin. apply elem_of_seq in Hin. simpl. lia.
Qed.

Lemma runPiece_storeInvariant p s :
  match p with
  | Whole (LoadOutfit outfit _) => outfit ∈ savedOutfits s
  | _ => True
  end →
  storeInvariant s → storeInvariant (runPiece p s).
Proof.
  intros Hadm Hinv. destruct p as [a | | | | | | | | | |];
    [by apply run_storeInvariant; [destruct a |] | ..];
    destruct Hinv as (Himg & Hhist & Harch); unfold storeInvariant;
    simpl; handler_paths; split_and!; eauto with store_inv.
Qed.

Lemma runPieces_storeInvariant ps : ∀ s,
  piecesLoadFromArchive ps s →
  storeInvariant s → storeInvariant (runPieces ps s).
Proof.
  induction ps as [| p rest IH]; intros s Hadm Hinv; [exact Hinv |].
  destruct Hadm as [Hp Hrest].
  apply (IH (runPiece p s) Hrest). by apply runPiece_storeInvariant.
Qed.

Lemma storeInvariant_layer_images s l :
  storeInvariant s → l ∈ outfitHistory s →
  heap_get (heap s) (poseImages l) ≠ [].
Proof.
  intros (Himg & Hhist & _) Hl.
  unfold layersAllocated in Hhist. rewrite Forall_forall in Hhist.
  specialize (Hhist l Hl). simpl in Hhist.
  unfold heap_get.
  destruct (heap s !! poseImages l) as [pm |] eqn:Hpm.
  - simpl. rewrite Forall_lookup in Himg. exact (Himg _ _ Hpm).
  - apply lookup_ge_None in Hpm. exfalso. by apply Nat.lt_nge in Hhist.
Qed.

(** X11.  In a session that started from an archive whose layers all have
    an image (or from no archive) and whose loads take their outfit from
    the archive, in whatever order the parts of the handlers before and
    after their awaits are run, with whatever closure and answer, every
    layer of the history has at least one pose image; so whenever the
    active position is inside the history there is an image to
    display. *)
Theorem history_layers_have_images stored ps :
  storedWithImages stored →
  piecesLoadFromArchive ps (mount stored) →
  let s := runPieces ps (mount stored) in
  Forall (λ l, heap_get (heap s) (poseImages l) ≠ []) (outfitHistory s)
  ∧ (0 ≤ currentOutfitIndex s < Z.of_nat (length (outfitHistory s)) →
     is_Some (displayImageUrl s)).
Proof.
  intros Hst Hadm s.
  assert (Hstore : storeInvariant s)
    by (apply runPieces_storeInvariant;
        [exact Hadm | by apply mount_storeInvariant]).
  split.
  - apply Forall_forall. intros l Hl.
    by apply storeInvariant_layer_images.
  - intros Hpos.
    destruct (js_index_in_range _ _ Hpos) as [layer Hl].
    unfold displayImageUrl. rewrite Hl.
    destruct (Nat.eqb_spec (length (outfitHistory s)) 0); [lia |].
    assert (Hin : layer ∈ outfitHistory s).
    { rewrite js_index_nonneg in Hl by lia.
      eapply list_elem_of_lookup_2. exact Hl. }
    pose proof (storeInvariant_layer_images s layer Hstore Hin) as Himg.
    destruct (pm_get _ _); [by eexists |].
    destruct (heap_get (heap s) (poseImages layer)) as [| [k v] rest];
      [done | by eexists].
Qed.

Lemma history_layers_have_images_witness :
  let ps :=
    [Whole (ModelFinalized "model.png");
     BeginItemClick geminiTee; BeginItemClick geminiSweat;
     ResumeItemClick clickTee (Some "tee-file");
     ResumeItemClick clickSweat (Some "sweat-file");
     ResolveItemSelect addTeeFromBase (Resolved "model+tee.png");
     ResolveItemSelect addSweatFromBase (Resolved "model+sweat.png");
     Whole RemoveLastGarment] in
  storedWithImages None
  ∧ piecesLoadFromArchive ps (mount None)
  ∧ currentOutfitIndex (runPieces ps (mount None)) = 1
  ∧ is_Some (displayImageUrl (runPieces ps (mount None))).
Proof.
  intros ps.
  assert (H0 : storedWithImages None) by exact I.
  assert (H1 : piecesLoadFromArchive ps (mount None)) by (by vm_compute).
  destruct (history_layers_have_images None ps H0 H1) as [_ Hd].
  split; [exact H0 |]. split; [exact H1 |]. split; [by vm_compute |].
  apply Hd. by vm_compute.
Defined.

(** ** Without a model image *)





(** ** Choosing the model *)

Lemma pm_get_singleton_or_head k v k' :
  match pm_get [(k, v)] k' with
  | Some image => Some image
  | None => head (pm_values [(k, v)])
  end = Some v.
Proof. simpl. by destruct (String.eqb k k'). Qed.

(** X13.  After a model is chosen the history is the single base layer,
    at position 0, without item, and the displayed image is the model
    photo whatever the pose position is: the handler does not touch the
    pose position, and at a position other than 0 the display falls back
    to the only image of the base layer. *)
Theorem model_photo_is_displayed url s :
  let s' := handleModelFinalized url s in
  displayImageUrl s' = Some url
  ∧ modelImageUrl s' = Some url
  ∧ length (outfitHistory s') = 1%nat
  ∧ currentOutfitIndex s' = 0
  ∧ activeItemIds s' = []
  ∧ availablePoseKeys s' = [poseKey 0]
  ∧ currentPoseIndex s' = currentPoseIndex s.
Proof.
  cbv zeta. unfold displayImageUrl, availablePoseKeys, activeItemIds,
    activeOutfitLayers, handleModelFinalized.
  cbn [outfitHistory currentOutfitIndex heap modelImageUrl currentPoseIndex
       setModelImageUrl updHeap setOutfitHistory setCurrentOutfitIndex
       length Nat.eqb poseImages item].
  unfold heap_get. change (js_index [?x] 0) with (Some x).
  cbn [poseImages]. rewrite list_lookup_middle by done. cbn [default].
  unfold Datatypes.id. rewrite pm_get_singleton_or_head.
  repeat split; reflexivity.
Qed.

(** ** Generating and revisiting a pose *)

Lemma handlePoseSelect_begin_request newIndex s s1 c :
  handlePoseSelect_begin newIndex s = (s1, Some c) →
  ∃ layer base,
    isLoading s = false
    ∧ newIndex ≠ currentPoseIndex s
    ∧ js_index (outfitHistory s) (currentOutfitIndex s) = Some layer
    ∧ head (pm_values (heap_get (heap s) (poseImages layer))) = Some base
    ∧ s1 = setCurrentPoseIndex newIndex
             (setLoadingMessage "Changing pose..."
                (setIsLoading true (setError None s)))
    ∧ c = {| psc_request := generatePoseVariation base (poseKey newIndex);
             psc_poseInstruction := poseKey newIndex;
             psc_prevPoseIndex := currentPoseIndex s;
             psc_currentOutfitIndex := currentOutfitIndex s |}.
Proof.
  unfold handlePoseSelect_begin.
  destruct (isLoading s); [discriminate |].
  destruct (length (outfitHistory s) =? 0)%nat; [discriminate |].
  destruct (Z.eqb_spec newIndex (currentPoseIndex s)); [discriminate |].
  cbn [orb].
  destruct (js_index (outfitHistory s) (currentOutfitIndex s))
    as [layer |] eqn:Hl; [| discriminate].
  destruct (truthy (pm_get (heap_get (heap s) (poseImages layer))
                      (poseKey newIndex))); [discriminate |].
  destruct (head (pm_values (heap_get (heap s) (poseImages layer))))
    as [base |] eqn:Hbase; [| discriminate].
  destruct (negb (truthy (Some base))); [discriminate |].
  intros [= <- <-]. exists layer, base. repeat split; auto.
Qed.

Lemma pm_keys_set (pm : PoseImages) k v : k ∈ pm_keys (pm_set pm k v).
Proof.
  unfold pm_keys, pm_set.
  induction pm as [| [k' v'] rest IH]; [apply list_elem_of_here |].
  destruct (String.eqb k' k); cbn [fmap list_fmap fst];
    [apply list_elem_of_here | by apply list_elem_of_further].
Qed.

(** X14.  A pose change that calls the service and gets an image: the
    request starts from the first image of the active layer; afterwards
    the history is the same list of layers at the same position, the pose
    position is the new index, the displayed image is the result, the new
    pose is among the available ones, every other pose image of the
    active layer is kept and no other pose-image object is written. *)
Theorem pose_success_records_image newIndex image s s1 c :
  handlePoseSelect_begin newIndex s = (s1, Some c) →
  heap_wf s →
  let s' := handlePoseSelect newIndex (Resolved image) s in
  ∃ layer base,
    js_index (outfitHistory s) (currentOutfitIndex s) = Some layer
    ∧ head (pm_values (heap_get (heap s) (poseImages layer))) = Some base
    ∧ psc_request c = generatePoseVariation base (poseKey newIndex)
    ∧ outfitHistory s' = outfitHistory s
    ∧ currentOutfitIndex s' = currentOutfitIndex s
    ∧ currentPoseIndex s' = newIndex
    ∧ isLoading s' = false
    ∧ displayImageUrl s' = Some image
    ∧ poseKey newIndex ∈ availablePoseKeys s'
    ∧ (∀ k, k ≠ poseKey newIndex →
         pm_get (heap_get (heap s') (poseImages layer)) k
         = pm_get (heap_get (heap s) (poseImages layer)) k)
    ∧ (∀ a, a ≠ poseImages layer →
         heap_get (heap s') a = heap_get (heap s) a).
Proof.
  intros Hb Hwf. cbv zeta. unfold handlePoseSelect. rewrite Hb.
  destruct (handlePoseSelect_begin_request _ _ _ _ Hb)
    as (layer & base & _ & _ & Hl & Hbase & -> & ->).
  exists layer, base.
  assert (Ha : (poseImages layer < length (heap s))%nat).
  { pose proof (js_index_Some _ _ _ Hl) as Hr.
    rewrite js_index_nonneg in Hl by lia.
    unfold heap_wf in Hwf. rewrite Forall_lookup in Hwf.
    exact (Hwf _ _ Hl). }
  unfold handlePoseSelect_resolve.
  cbn [psc_currentOutfitIndex psc_poseInstruction psc_request outfitHistory
       setCurrentPoseIndex setLoadingMessage setIsLoading setError].
  rewrite Hl.
  assert (Hnew :
    heap_get (<[poseImages layer :=
                  pm_set (heap_get (heap s) (poseImages layer))
                    (poseKey newIndex) image]> (heap s)) (poseImages layer)
    = pm_set (heap_get (heap s) (poseImages layer)) (poseKey newIndex) image).
  { unfold heap_get at 1. by rewrite list_lookup_insert_eq. }
  pose proof (js_index_Some _ _ _ Hl) as Hr.
  split; [reflexivity |]. split; [exact Hbase |]. split; [reflexivity |].
  split; [reflexivity |]. split; [reflexivity |]. split; [reflexivity |].
  split; [reflexivity |].
  split.
  { unfold displayImageUrl.
    cbn [outfitHistory currentOutfitIndex currentPoseIndex heap updHeap
         setCurrentPoseIndex setLoadingMessage setIsLoading setError].
    destruct (Nat.eqb_spec (length (outfitHistory s)) 0); [lia |].
    rewrite Hl, Hnew. by rewrite pm_get_set_eq. }
  split.
  { unfold availablePoseKeys.
    cbn [outfitHistory currentOutfitIndex heap updHeap
         setCurrentPoseIndex setLoadingMessage setIsLoading setError].
    destruct (Nat.eqb_spec (length (outfitHistory s)) 0); [lia |].
    rewrite Hl, Hnew. apply pm_keys_set. }
  split.
  { intros k Hk.
    cbn [heap updHeap setCurrentPoseIndex setLoadingMessage setIsLoading
         setError].
    rewrite Hnew. by apply pm_get_set_ne. }
  intros a Hne.
  cbn [heap updHeap setCurrentPoseIndex setLoadingMessage setIsLoading
       setError].
  unfold heap_get. by rewrite list_lookup_insert_ne.
Qed.

Lemma pose_success_records_image_witness :
  displayImageUrl
    (handlePoseSelect 1 (Resolved "model+tee@pose1.png") sessionTee)
  = Some "model+tee@pose1.png"
  ∧ availablePoseKeys
      (handlePoseSelect 1 (Resolved "model+tee@pose1.png") sessionTee)
    = [poseKey 0; poseKey 1].
Proof.
  assert (E : handlePoseSelect_begin 1 sessionTee
    = ((handlePoseSelect_begin 1 sessionTee).1,
       Some {| psc_request :=
                 generatePoseVariation "model+tee.png" (poseKey 1);
               psc_poseInstruction := poseKey 1; psc_prevPoseIndex := 0;
               psc_currentOutfitIndex := 1 |}))
    by (vm_compute; reflexivity).
  assert (Hwf : heap_wf sessionTee).
  { unfold heap_wf. repeat constructor. }
  destruct (pose_success_records_image 1 "model+tee@pose1.png" sessionTee
              _ _ E Hwf) as (layer & base & _ & _ & _ & _ & _ & _ & _ & Hd & _).
  split; [exact Hd | by vm_compute].
Defined.

(** X15.  A pose that was generated with a non-empty image is cached on
    its layer: from any later idle state with the same history, position
    and pose images and another pose position, selecting it again issues
    no request, changes only the pose position, and shows the generated
    image. *)
Theorem generated_pose_is_cached newIndex image r s s1 c st :
  handlePoseSelect_begin newIndex s = (s1, Some c) →
  heap_wf s →
  image ≠ "" →
  outfitHistory st = outfitHistory s →
  currentOutfitIndex st = currentOutfitIndex s →
  heap st = heap (handlePoseSelect newIndex (Resolved image) s) →
  isLoading st = false →
  currentPoseIndex st ≠ newIndex →
  handlePoseSelect_begin newIndex st = (setCurrentPoseIndex newIndex st, None)
  ∧ handlePoseSelect newIndex r st = setCurrentPoseIndex newIndex st
  ∧ displayImageUrl (handlePoseSelect newIndex r st) = Some image.
Proof.
  intros Hb Hwf Himg Hh Hi Hheap Hidle Hpose.
  destruct (handlePoseSelect_begin_request _ _ _ _ Hb)
    as (layer & base & _ & _ & Hl & _ & -> & ->).
  assert (Ha : (poseImages layer < length (heap s))%nat).
  { pose proof (js_index_Some _ _ _ Hl) as Hr.
    rewrite js_index_nonneg in Hl by lia.
    unfold heap_wf in Hwf. rewrite Forall_lookup in Hwf.
    exact (Hwf _ _ Hl). }
  assert (Hget : pm_get (heap_get (heap st) (poseImages layer))
                   (poseKey newIndex) = Some image).
  { rewrite Hheap. unfold handlePoseSelect. rewrite Hb.
    unfold handlePoseSelect_resolve.
    cbn [psc_currentOutfitIndex psc_poseInstruction outfitHistory heap
         updHeap setCurrentPoseIndex setLoadingMessage setIsLoading setError].
    rewrite Hl.
    cbn [heap updHeap setCurrentPoseIndex setLoadingMessage setIsLoading
         setError].
    unfold heap_get at 1. rewrite list_lookup_insert_eq by done.
    apply pm_get_set_eq. }
  pose proof (js_index_Some _ _ _ Hl) as Hr.
  assert (Hbegin : handlePoseSelect_begin newIndex st
                   = (setCurrentPoseIndex newIndex st, None)).
  { unfold handlePoseSelect_begin. rewrite Hidle, Hh, Hi, Hl, Hget.
    destruct (Nat.eqb_spec (length (outfitHistory s)) 0); [lia |].
    destruct (Z.eqb_spec newIndex (currentPoseIndex st)); [congruence |].
    cbn [orb truthy].
    by destruct (String.eqb_spec image ""). }
  assert (Hrun : handlePoseSelect newIndex r st
                 = setCurrentPoseIndex newIndex st).
  { unfold handlePoseSelect. by rewrite Hbegin. }
  split; [exact Hbegin |]. split; [exact Hrun |].
  rewrite Hrun. unfold displayImageUrl.
  cbn [outfitHistory currentOutfitIndex currentPoseIndex heap
       setCurrentPoseIndex].
  rewrite Hh, Hi, Hl, Hget.
  by destruct (Nat.eqb_spec (length (outfitHistory s)) 0); [lia |].
Qed.

Lemma generated_pose_is_cached_witness :
  let s' := handlePoseSelect 1 (Resolved "model+tee@pose1.png") sessionTee in
  let st := handlePoseSelect 0 (Rejected "never asked") s' in
  currentPoseIndex st = 0
  ∧ handlePoseSelect_begin 1 st = (setCurrentPoseIndex 1 st, None)
  ∧ displayImageUrl (handlePoseSelect 1 (Rejected "never asked") st)
    = Some "model+tee@pose1.png".
Proof.
  intros s' st.
  assert (E : handlePoseSelect_begin 1 sessionTee
    = ((handlePoseSelect_begin 1 sessionTee).1,
       Some {| psc_request :=
                 generatePoseVariation "model+tee.png" (poseKey 1);
               psc_poseInstruction := poseKey 1; psc_prevPoseIndex := 0;
               psc_currentOutfitIndex := 1 |}))
    by (vm_compute; reflexivity).
  assert (Hwf : heap_wf sessionTee).
  { unfold heap_wf. repeat constructor. }
  destruct (generated_pose_is_cached 1 "model+tee@pose1.png"
              (Rejected "never asked") sessionTee _ _ st E Hwf
              ltac:(discriminate) ltac:(by vm_compute) ltac:(by vm_compute)
              ltac:(by vm_compute) ltac:(by vm_compute) ltac:(by vm_compute))
    as (Hbegin & _ & Hd).
  split; [by vm_compute |]. split; [exact Hbegin | exact Hd].
Defined.

(** ** The buttons of the outfit stack and the recolor they start *)

Lemma activeOutfitLayers_length s :
  0 ≤ currentOutfitIndex s < Z.of_nat (length (outfitHistory s)) →
  Z.of_nat (length (activeOutfitLayers s)) = currentOutfitIndex s + 1.
Proof. intros H. unfold activeOutfitLayers. apply js_slice0_length. lia. Qed.

(** X16.  With a valid active position, the recolor and remove buttons
    are rendered on one row only, the row of the active layer, and not at
    all when the base layer is active.  So the recolor button selects the
    active layer, never a layer kept after the active position, and the
    remove button is [handleRemoveLastGarment]. *)
Theorem stack_buttons_act_on_active_layer index s :
  0 ≤ currentOutfitIndex s < Z.of_nat (length (outfitHistory s)) →
  (stackButtonsRendered s index = true
   ↔ Z.of_nat index = currentOutfitIndex s ∧ 0 < currentOutfitIndex s)
  ∧ (stackButtonsRendered s index = true →
     selectedLayerIndexForRecolor (clickRecolorButton index s)
     = Some (currentOutfitIndex s)
     ∧ isColorPickerOpen (clickRecolorButton index s) = true
     ∧ clickRemoveButton index s = handleRemoveLastGarment s
     ∧ currentOutfitIndex (clickRemoveButton index s)
       = currentOutfitIndex s - 1)
  ∧ (stackButtonsRendered s index = false →
     clickRecolorButton index s = s ∧ clickRemoveButton index s = s).
Proof.
  intros Hpos.
  assert (Hiff : stackButtonsRendered s index = true
                 ↔ Z.of_nat index = currentOutfitIndex s
                   ∧ 0 < currentOutfitIndex s).
  { unfold stackButtonsRendered. rewrite (activeOutfitLayers_length s Hpos).
    rewrite andb_true_iff, Z.ltb_lt, Z.eqb_eq. lia. }
  split; [exact Hiff |]. split.
  - intros Hr. destruct (proj1 Hiff Hr) as [Hi Hgt].
    unfold clickRecolorButton, clickRemoveButton. rewrite Hr.
    cbn [handleOpenColorPicker selectedLayerIndexForRecolor isColorPickerOpen
         setIsColorPickerOpen setSelectedLayerIndexForRecolor].
    rewrite Hi. split; [done |]. split; [done |]. split; [done |].
    unfold handleRemoveLastGarment.
    by destruct (Z.ltb_spec 0 (currentOutfitIndex s)); [| lia].
  - intros Hr. unfold clickRecolorButton, clickRemoveButton. by rewrite Hr.
Qed.

Lemma stack_buttons_act_on_active_layer_witness :
  stackButtonsRendered sessionTee 1 = true
  ∧ stackButtonsRendered sessionTee 0 = false
  ∧ stackButtonsRendered sessionUndone 1 = false
  ∧ selectedLayerIndexForRecolor (clickRecolorButton 1 sessionTee) = Some 1.
Proof.
  assert (Hpos : 0 ≤ currentOutfitIndex sessionTee
                 < Z.of_nat (length (outfitHistory sessionTee)))
    by (by vm_compute).
  destruct (stack_buttons_act_on_active_layer 1 sessionTee Hpos)
    as (_ & Hon & _).
  assert (Hr : stackButtonsRendered sessionTee 1 = true) by (by vm_compute).
  split; [exact Hr |]. split; [by vm_compute |]. split; [by vm_compute |].
  exact (proj1 (Hon Hr)).
Defined.

(** X17.  A recolor started from the button of the stack and confirmed in
    the color picker asks the service to recolor the item of the active
    layer on the displayed image; when the image comes back it is the
    displayed image, the active layer has that one pose only, the picker
    is closed and nothing is selected for recolor any more. *)
Theorem recolor_from_button_shows_result index color image s layer it :
  0 ≤ currentOutfitIndex s < Z.of_nat (length (outfitHistory s)) →
  stackButtonsRendered s index = true →
  js_index (outfitHistory s) (currentOutfitIndex s) = Some layer →
  item layer = Some it →
  truthy (displayImageUrl s) = true →
  let s1 := run (ClickRecolorButton index) s in
  let s' := run (ConfirmRecolor color (Resolved image)) s1 in
  (∃ c, (handleConfirmRecolor_begin color s1).2 = Some c
        ∧ rc_request c
          = generateColorVariation (default "" (displayImageUrl s))
              (name it) color)
  ∧ displayImageUrl s' = Some image
  ∧ availablePoseKeys s' = [poseKey (currentPoseIndex s)]
  ∧ currentOutfitIndex s' = currentOutfitIndex s
  ∧ isColorPickerOpen s' = false
  ∧ selectedLayerIndexForRecolor s' = None
  ∧ isLoading s' = false.
Proof.
  intros Hpos Hr Hl Hit Hshown. cbv zeta.
  assert (Hi : Z.of_nat index = currentOutfitIndex s).
  { unfold stackButtonsRendered in Hr.
    rewrite (activeOutfitLayers_length s Hpos) in Hr.
    apply andb_true_iff in Hr as [_ Hr]. apply Z.eqb_eq in Hr. lia. }
  assert (Hs1 : run (ClickRecolorButton index) s
                = handleOpenColorPicker (currentOutfitIndex s) s).
  { simpl. unfold clickRecolorButton. by rewrite Hr, Hi. }
  rewrite Hs1. clear Hs1.
  assert (Hd1 : displayImageUrl (handleOpenColorPicker (currentOutfitIndex s) s)
                = displayImageUrl s) by reflexivity.
  assert (Hbegin :
    handleConfirmRecolor_begin color
      (handleOpenColorPicker (currentOutfitIndex s) s)
    = (setIsColorPickerOpen false
         (setLoadingMessage ("Recoloring to " +:+ color +:+ "...")
            (setIsLoading true
               (setError None
                  (handleOpenColorPicker (currentOutfitIndex s) s)))),
       Some {| rc_request :=
                 generateColorVariation (default "" (displayImageUrl s))
                   (name it) color;
               rc_selectedLayerIndexForRecolor := currentOutfitIndex s;
               rc_currentPoseIndex := currentPoseIndex s |})).
  { unfold handleConfirmRecolor_begin, colorPickerRendered,
      selectedItemForRecolor, handleRecolorGarment_begin.
    rewrite Hd1, Hshown.
    cbn [handleOpenColorPicker selectedLayerIndexForRecolor isColorPickerOpen
         outfitHistory currentPoseIndex
         setIsColorPickerOpen setSelectedLayerIndexForRecolor negb].
    by rewrite Hl, Hit. }
  split; [rewrite Hbegin; by eexists |].
  change (run (ConfirmRecolor color (Resolved image)) ?st)
    with (match handleConfirmRecolor_begin color st with
          | (s1, Some c) => handleRecolorGarment_resolve c (Resolved image) s1
          | (s1, None) => s1
          end).
  rewrite Hbegin. unfold handleRecolorGarment_resolve.
  cbn [rc_selectedLayerIndexForRecolor rc_currentPoseIndex outfitHistory
       handleOpenColorPicker setIsColorPickerOpen setLoadingMessage
       setIsLoading setError setSelectedLayerIndexForRecolor].
  rewrite Hl.
  assert (Hnew : js_index
            (recolorLayers (currentOutfitIndex s) (length (heap s))
               (outfitHistory s)) (currentOutfitIndex s)
          = Some {| item := item layer; poseImages := length (heap s) |}).
  { rewrite recolorLayers_index, Hl. simpl. by rewrite Z.eqb_refl. }
  assert (Hlen : length (recolorLayers (currentOutfitIndex s)
                           (length (heap s)) (outfitHistory s))
                 = length (outfitHistory s)) by apply length_imap.
  assert (Hobj : heap_get
            (heap s ++ [[(poseKey (currentPoseIndex s), image)]])
            (length (heap s))
          = [(poseKey (currentPoseIndex s), image)]).
  { unfold heap_get. by rewrite list_lookup_middle. }
  split.
  { unfold displayImageUrl.
    cbn [outfitHistory currentOutfitIndex currentPoseIndex heap updHeap
         setOutfitHistory handleOpenColorPicker setIsColorPickerOpen
         setLoadingMessage setIsLoading setError
         setSelectedLayerIndexForRecolor].
    rewrite Hlen, Hnew. cbn [poseImages]. rewrite Hobj.
    destruct (Nat.eqb_spec (length (outfitHistory s)) 0); [lia |].
    cbn [pm_get]. by rewrite String.eqb_refl. }
  split.
  { unfold availablePoseKeys.
    cbn [outfitHistory currentOutfitIndex currentPoseIndex heap updHeap
         setOutfitHistory handleOpenColorPicker setIsColorPickerOpen
         setLoadingMessage setIsLoading setError
         setSelectedLayerIndexForRecolor].
    rewrite Hlen, Hnew. cbn [poseImages]. rewrite Hobj.
    by destruct (Nat.eqb_spec (length (outfitHistory s)) 0); [lia |]. }
  repeat split.
Qed.

Lemma recolor_from_button_shows_result_witness :
  displayImageUrl
    (runAll [ClickRecolorButton 1;
             ConfirmRecolor "#16a34a" (Resolved "model+green-tee.png")]
       sessionTee)
  = Some "model+green-tee.png".
Proof.
  exact (proj1 (proj2
    (recolor_from_button_shows_result 1 "#16a34a" "model+green-tee.png"
       sessionTee {| item := Some geminiTee; poseImages := 1%nat |} geminiTee
       ltac:(by vm_compute) ltac:(by vm_compute) ltac:(by vm_compute)
       eq_refl ltac:(by vm_compute)))).
Defined.

(** ** After an add: worn, undone, redone *)

Lemma handleItemSelect_appended itemFile itemInfo image s s1 c :
  handleItemSelect_begin itemFile itemInfo s = (s1, Some c) →
  0 ≤ currentOutfitIndex s < Z.of_nat (length (outfitHistory s)) →
  let s' := handleItemSelect itemFile itemInfo (Resolved image) s in
  outfitHistory s'
  = take (Z.to_nat (currentOutfitIndex s + 1)) (outfitHistory s)
    ++ [ {| item := Some itemInfo; poseImages := length (heap s) |} ]
  ∧ currentOutfitIndex s' = currentOutfitIndex s + 1
  ∧ heap s' = heap s ++ [[(poseKey (currentPoseIndex s), image)]]
  ∧ currentPoseIndex s' = currentPoseIndex s
  ∧ isLoading s' = false.
Proof.
  intros Hb Hpos. cbv zeta. unfold handleItemSelect. rewrite Hb.
  destruct (handleItemSelect_begin_request _ _ _ _ _ Hb)
    as (_ & _ & _ & -> & Hi & Hp & Ho).
  destruct (handleItemSelect_resolved c image
              (setLoadingMessage ("Adding " +:+ name itemInfo +:+ "...")
                 (setIsLoading true (setError None s))))
    as (Hh & Hidx & Hm & Hpose & _ & Hidle).
  rewrite Hh, Hidx, Hm, Hpose, Hidle, Hi, Hp, Ho.
  cbn [outfitHistory currentOutfitIndex heap currentPoseIndex
       setLoadingMessage setIsLoading setError].
  by rewrite js_slice0_nonneg by lia.
Qed.

(** X18.  Once an item with a non-empty id has been added, it is among
    the worn items, and a click on it in the wardrobe panel does
    nothing. *)
Theorem added_item_is_worn itemFile itemInfo image file s s1 c :
  handleItemSelect_begin itemFile itemInfo s = (s1, Some c) →
  0 ≤ currentOutfitIndex s < Z.of_nat (length (outfitHistory s)) →
  id itemInfo ≠ "" →
  let s' := handleItemSelect itemFile itemInfo (Resolved image) s in
  id itemInfo ∈ activeItemIds s'
  ∧ handleItemClick itemInfo file s' = (s', None).
Proof.
  intros Hb Hpos Hid. cbv zeta.
  destruct (handleItemSelect_appended _ _ image _ _ _ Hb Hpos)
    as (Hh & Hi & _).
  assert (Hin : id itemInfo
                ∈ activeItemIds
                    (handleItemSelect itemFile itemInfo (Resolved image) s)).
  { apply elem_of_activeItemIds. split; [exact Hid |].
    exists {| item := Some itemInfo; poseImages := length (heap s) |},
      itemInfo.
    split; [| done].
    unfold activeOutfitLayers. rewrite Hh, Hi.
    rewrite js_slice0_nonneg by lia.
    rewrite take_ge by (rewrite length_app, length_take; simpl; lia).
    apply elem_of_app. right. apply list_elem_of_here. }
  split; [exact Hin |].
  rewrite handleItemClick_back_to_back, (bool_decide_eq_true_2 _ Hin).
  by rewrite orb_true_r.
Qed.

Lemma added_item_is_worn_witness :
  let s' :=
    handleItemSelect "hat-file" sunHat (Resolved "model+tee+hat.png")
      sessionTee in
  activeItemIds s' = ["gemini-tee"; "sun-hat"]
  ∧ handleItemClick sunHat (Some "hat-file") s' = (s', None).
Proof.
  assert (E : handleItemSelect_begin "hat-file" sunHat sessionTee
    = ((handleItemSelect_begin "hat-file" sunHat sessionTee).1,
       Some {| isc_request :=
                 generateAccessoryTryOnImage "model+tee.png" "hat-file";
               isc_itemInfo := sunHat; isc_currentPoseIndex := 0;
               isc_currentOutfitIndex := 1 |}))
    by (vm_compute; reflexivity).
  destruct (added_item_is_worn "hat-file" sunHat "model+tee+hat.png"
              (Some "hat-file") sessionTee _ _ E
              ltac:(by vm_compute) ltac:(discriminate))
    as [_ Hclick].
  split; [by vm_compute | exact Hclick].
Defined.

(** X19.  Redo: an item is added, removed again, and selected a second
    time.  When the layer below shows a non-empty image at pose position
    0, the second selection issues no request: the history and the pose
    images are the ones the add produced, the added layer is active
    again, the pose position is 0 and the displayed image is the image
    the service returned for the add. *)
Theorem remove_then_readd_is_redo itemFile itemInfo image s s1 c :
  handleItemSelect_begin itemFile itemInfo s = (s1, Some c) →
  0 ≤ currentOutfitIndex s < Z.of_nat (length (outfitHistory s)) →
  heap_wf s →
  truthy (displayImageUrl (setCurrentPoseIndex 0 s)) = true →
  let s2 := handleItemSelect itemFile itemInfo (Resolved image) s in
  let s3 := handleRemoveLastGarment s2 in
  ∃ s4,
    handleItemSelect_begin itemFile itemInfo s3 = (s4, None)
    ∧ outfitHistory s4 = outfitHistory s2
    ∧ heap s4 = heap s2
    ∧ currentOutfitIndex s4 = currentOutfitIndex s2
    ∧ currentPoseIndex s4 = 0
    ∧ displayImageUrl s4 = Some image.
Proof.
  intros Hb Hpos Hwf Hshown. cbv zeta.
  destruct (handleItemSelect_appended _ _ image _ _ _ Hb Hpos)
    as (Hh & Hi & Hm & Hp & Hidle).
  set (s2 := handleItemSelect itemFile itemInfo (Resolved image) s) in *.
  set (new := {| item := Some itemInfo; poseImages := length (heap s) |}) in *.
  assert (Hs3 : handleRemoveLastGarment s2
                = setCurrentPoseIndex 0
                    (setCurrentOutfitIndex (λ prev, prev - 1) s2)).
  { unfold handleRemoveLastGarment.
    by destruct (Z.ltb_spec 0 (currentOutfitIndex s2)); [| lia]. }
  rewrite Hs3.
  set (s3 := setCurrentPoseIndex 0
               (setCurrentOutfitIndex (λ prev, prev - 1) s2)).
  destruct (js_index_in_range (outfitHistory s) (currentOutfitIndex s) Hpos)
    as [layer Hl].
  assert (Hl3 : js_index (outfitHistory s3) (currentOutfitIndex s3)
                = Some layer).
  { subst s3. cbn [outfitHistory currentOutfitIndex setCurrentPoseIndex
                   setCurrentOutfitIndex].
    rewrite Hh, Hi.
    replace (currentOutfitIndex s + 1 - 1) with (currentOutfitIndex s) by lia.
    rewrite js_index_nonneg in Hl |- * by lia.
    rewrite lookup_app_l by (rewrite length_take; lia).
    rewrite lookup_take_lt by lia. exact Hl. }
  assert (Ha : (poseImages layer < length (heap s))%nat).
  { rewrite js_index_nonneg in Hl by lia.
    unfold heap_wf in Hwf. rewrite Forall_lookup in Hwf.
    exact (Hwf _ _ Hl). }
  assert (Hd3 : displayImageUrl s3 = displayImageUrl (setCurrentPoseIndex 0 s)).
  { apply (displayImageUrl_agree _ _ layer); [exact Hl | exact Hl3 | |
                                              reflexivity].
    subst s3. cbn [heap setCurrentPoseIndex setCurrentOutfitIndex].
    rewrite Hm. by apply heap_get_app. }
  assert (Hnext : js_index (outfitHistory s3) (currentOutfitIndex s3 + 1)
                  = Some new).
  { subst s3. cbn [outfitHistory currentOutfitIndex setCurrentPoseIndex
                   setCurrentOutfitIndex].
    rewrite Hh, Hi.
    replace (currentOutfitIndex s + 1 - 1 + 1)
      with (Z.of_nat (length (take (Z.to_nat (currentOutfitIndex s + 1))
                                (outfitHistory s))))
      by (rewrite length_take; lia).
    rewrite js_index_nonneg by lia. rewrite Nat2Z.id.
    by rewrite list_lookup_middle. }
  assert (Hcached : isCachedNext s3 itemInfo = true).
  { unfold isCachedNext. rewrite Hnext. cbn [item new].
    apply String.eqb_refl. }
  eexists. split.
  { unfold handleItemSelect_begin. rewrite Hd3, Hshown, Hcached.
    replace (isLoading s3) with false by (symmetry; exact Hidle).
    reflexivity. }
  cbn [outfitHistory heap currentOutfitIndex currentPoseIndex
       setCurrentPoseIndex setCurrentOutfitIndex].
  split; [subst s3; reflexivity |]. split; [subst s3; reflexivity |].
  split; [subst s3; cbn; lia |]. split; [reflexivity |].
  unfold displayImageUrl.
  cbn [outfitHistory heap currentOutfitIndex currentPoseIndex
       setCurrentPoseIndex setCurrentOutfitIndex].
  rewrite Hnext.
  pose proof (js_index_Some _ _ _ Hnext) as Hr.
  destruct (Nat.eqb_spec (length (outfitHistory s3)) 0); [lia |].
  subst s3. cbn [heap setCurrentPoseIndex setCurrentOutfitIndex new
                 poseImages].
  rewrite Hm. unfold heap_get. rewrite list_lookup_middle by done.
  cbn [default from_option]. unfold Datatypes.id.
  apply pm_get_singleton_or_head.
Qed.

Lemma remove_then_readd_is_redo_witness :
  let s2 :=
    handleItemSelect "tee-file" geminiTee (Resolved "model@pose1+tee.png")
      sessionPosed in
  let s4 :=
    handleItemSelect "tee-file" geminiTee (Rejected "never asked")
      (handleRemoveLastGarment s2) in
  outfitHistory s4 = outfitHistory s2
  ∧ currentOutfitIndex s4 = 1
  ∧ displayImageUrl s4 = Some "model@pose1+tee.png".
Proof.
  assert (E : handleItemSelect_begin "tee-file" geminiTee sessionPosed
    = ((handleItemSelect_begin "tee-file" geminiTee sessionPosed).1,
       Some {| isc_request :=
                 generateVirtualTryOnImage "model@pose1.png" "tee-file";
               isc_itemInfo := geminiTee; isc_currentPoseIndex := 1;
               isc_currentOutfitIndex := 0 |}))
    by (vm_compute; reflexivity).
  assert (Hwf : heap_wf sessionPosed).
  { unfold heap_wf. repeat constructor. }
  destruct (remove_then_readd_is_redo "tee-file" geminiTee
              "model@pose1+tee.png" sessionPosed _ _ E
              ltac:(by vm_compute) Hwf ltac:(by vm_compute))
    as (s4' & Hb4 & Hh & _ & Hi & _ & Hd).
  intros s2 s4.
  assert (Heq : s4 = s4').
  { subst s4 s2. unfold handleItemSelect at 1. by rewrite Hb4. }
  rewrite Heq.
  split; [exact Hh |]. split; [rewrite Hi; by vm_compute | exact Hd].
Defined.

(** ** Uploading a custom item *)

(** X20.  An upload reaches the image service only for a file whose MIME
    type starts with "image/", while nothing is in flight and an image is
    displayed; the request is for the operation of the active tab, on the
    displayed image and the uploaded file, and the item made for it has
    the id "custom-" followed by the time, the file's name and the type
    of the tab.  Any other file only sets the panel's error. *)
Theorem upload_requests_only_images files activeTab now objectUrl s s1 c :
  handleFileChange files activeTab now objectUrl s = (s1, Some c) →
  ∃ file base,
    files = Some file
    ∧ String.prefix "image/" (up_type file) = true
    ∧ isLoading s = false
    ∧ displayImageUrl s = Some base
    ∧ isc_request c
      = match activeTab with
        | garmentsTab => generateVirtualTryOnImage base (up_file file)
        | accessoriesTab => generateAccessoryTryOnImage base (up_file file)
        end
    ∧ isc_itemInfo c
      = {| id := "custom-" +:+ now; name := up_name file; url := objectUrl;
           type := match activeTab with
                   | garmentsTab => garment
                   | accessoriesTab => accessory
                   end |}
    ∧ (∀ other : Upload,
         String.prefix "image/" (up_type other) = false →
         handleFileChange (Some other) activeTab now objectUrl s
         = (setPanelError (Some "Please select an image file.") s, None)).
Proof.
  unfold handleFileChange. destruct files as [file |]; [| discriminate].
  destruct (String.prefix "image/" (up_type file)) eqn:Himg;
    [| discriminate].
  cbn [negb]. intros Hb. exists file.
  destruct (handleItemSelect_begin_request _ _ _ _ _ Hb)
    as (Hshown & Hidle & _ & _ & Hi & _).
  unfold handleItemSelect_begin in Hb.
  destruct (displayImageUrl s) as [base |] eqn:Hd; [| discriminate].
  rewrite Hshown, Hidle in Hb. cbn [negb orb] in Hb.
  destruct (isCachedNext s _); [discriminate |].
  injection Hb as _ <-. exists base.
  repeat split; try done.
  - by destruct activeTab.
  - intros other Ho. by rewrite Ho.
Qed.

Lemma upload_requests_only_images_witness :
  let photo :=
    {| up_file := "scarf-file"; up_name := "scarf.png";
       up_type := "image/png" |} in
  let notes :=
    {| up_file := "notes-file"; up_name := "notes.txt";
       up_type := "text/plain" |} in
  (handleFileChange (Some photo) accessoriesTab "1700000000001" "blob:scarf"
     sessionTee).2
  = Some {| isc_request :=
              generateAccessoryTryOnImage "model+tee.png" "scarf-file";
            isc_itemInfo :=
              {| id := "custom-1700000000001"; name := "scarf.png";
                 url := "blob:scarf"; type := accessory |};
            isc_currentPoseIndex := 0; isc_currentOutfitIndex := 1 |}
  ∧ handleFileChange (Some notes) accessoriesTab "1700000000001" "blob:notes"
      sessionTee
    = (setPanelError (Some "Please select an image file.") sessionTee, None).
Proof.
  intros photo notes.
  assert (E : handleFileChange (Some photo) accessoriesTab "1700000000001"
                "blob:scarf" sessionTee
    = ((handleFileChange (Some photo) accessoriesTab "1700000000001"
          "blob:scarf" sessionTee).1,
       Some {| isc_request :=
                 generateAccessoryTryOnImage "model+tee.png" "scarf-file";
               isc_itemInfo :=
                 {| id := "custom-1700000000001"; name := "scarf.png";
                    url := "blob:scarf"; type := accessory |};
               isc_currentPoseIndex := 0; isc_currentOutfitIndex := 1 |}))
    by (vm_compute; reflexivity).
  destruct (upload_requests_only_images _ _ _ _ _ _ _ E)
    as (file & base & _).
  split; [by rewrite E | by vm_compute].
Defined.

(** ** The lookbook: download and share *)

(** X21.  Whatever the browser and the image library answer, when the
    lookbook is mounted a download and a share both end with
    [isProcessing] off, and when it is not mounted they do nothing. *)
Theorem lookbook_processing_flag_released init :
  (∀ ref png,
     isProcessingAfter init (handleDownload ref png)
     = (if ref then false else init)
     ∧ (ref = false → handleDownload ref png = []))
  ∧ (∀ w,
       isProcessingAfter init (handleShare w)
       = (if refCurrent w then false else init)
       ∧ (refCurrent w = false → handleShare w = [])).
Proof.
  split.
  - intros [|] [dataUrl |]; by split.
  - intros [[|] [|] [[blobType |] |] [|] [|] [|] [dataUrl |]]; by split.
Qed.

(** X22.  A share that does not go through (no share API, no blob, a
    file the browser will not share, or a rejected share) tells the user
    with one alert and falls back to the download: when the lookbook is
    still mounted at that moment and the image can be made, the download
    link "my-lookbook.png" is clicked exactly once with that image; when
    the image cannot be made, it is not clicked and a second alert says
    so.  A share that goes through clicks no link and shows no alert. *)
Theorem failed_share_falls_back_to_download w :
  refCurrent w = true →
  (shared w = true →
     filter isLinkClick (handleShare w) = []
     ∧ filter isAlert (handleShare w) = [])
  ∧ (shared w = false →
     (shareApi w = false ∨ refAtFallback w = true) →
     match toPngResult w with
     | Some dataUrl =>
         filter isLinkClick (handleShare w)
         = [LinkClick "my-lookbook.png" dataUrl]
         ∧ length (filter isAlert (handleShare w)) = 1%nat
     | None =>
         filter isLinkClick (handleShare w) = []
         ∧ length (filter isAlert (handleShare w)) = 2%nat
     end).
Proof.
  destruct w as [[|] [|] [[blobType |] |] [|] [|] [|] [dataUrl |]];
    intros Href; try discriminate Href;
    (split; [intros Hs; try discriminate Hs; by split
            | intros Hs Hor; try discriminate Hs;
              try (destruct Hor as [Hor | Hor]; discriminate Hor);
              by split]).
Qed.

Lemma failed_share_falls_back_to_download_witness :
  let w :=
    {| refCurrent := true; shareApi := true;
       toBlobResult := Some (Some "image/png"); canShareFile := true;
       shareResolves := false; refAtFallback := true;
       toPngResult := Some "data:image/png;base64,AAAA" |} in
  shared w = false
  ∧ filter isLinkClick (handleShare w)
    = [LinkClick "my-lookbook.png" "data:image/png;base64,AAAA"]
  ∧ isProcessingAfter true (handleShare w) = false.
Proof.
  intros w.
  destruct (failed_share_falls_back_to_download w eq_refl) as [_ Hfall].
  split; [reflexivity |]. split; [| reflexivity].
  exact (proj1 (Hfall eq_refl (or_intror eq_refl))).
Defined.

Lemma lookbook_processing_flag_released_witness :
  handleDownload false (Some "data:image/png;base64,AAAA") = []
  ∧ isProcessingAfter true
      (handleDownload true (Some "data:image/png;base64,AAAA")) = false.
Proof.
  destruct (lookbook_processing_flag_released true) as [Hdown _].
  split.
  - exact (proj2 (Hdown false (Some "data:image/png;base64,AAAA")) eq_refl).
  - exact (proj1 (Hdown true (Some "data:image/png;base64,AAAA"))).
Defined.

Lemma delete_removes_by_id_witness :
  savedOutfits (handleDeleteOutfit "1700000000000" true sessionSaved) = []
  ∧ localStorage (handleDeleteOutfit "1700000000000" true sessionSaved)
    = Some [].
Proof.
  destruct (delete_removes_by_id "1700000000000" sessionSaved)
    as (_ & _ & Hstore & _).
  assert (Hempty : savedOutfits
                     (handleDeleteOutfit "1700000000000" true sessionSaved)
                   = []) by (by vm_compute).
  split; [exact Hempty |]. rewrite Hstore, Hempty. reflexivity.
Defined.
